(** * Dataset batching and partition replay of [tools/datasets_satellite_into_sview.py]

    A shallow embedding of the [Dataset] class and of its four subclasses
    ([Dataset_CrossValidation], [Dataset_TVT], [Dataset_TT],
    [Dataset_TT_byclass]).  Methods are state transformers over the Python
    process state (the object, numpy's global random state, the pickle
    files); exceptions are a [Raise] outcome.

    Conventions.
    - The module is read with Python 3 semantics ([/] is true division).
    - Sample indices, cursors and batch sizes are natural numbers.
    - Feature vectors, satellite rasters and coordinates are floating point
      arrays; they stay abstract, with their element-wise operations taken
      from the environment ([Numerics]).  [np.int(a / np.float(b))] and
      [np.int(np.ceil(a / b))] are the integer floor and ceiling quotients.
    - [gdal_tools] and [partitioning] are modules of the repository outside
      the sources at hand: their functions are operations of the environment
      ([Numerics], [Partitioning]). *)

From Stdlib Require Import ZArith QArith Qround.
From stdpp Require Import base list sorting gmap strings.

Open Scope nat_scope.

(** ** Exceptions and the method monad *)

Inductive exn : Type :=
| IndexError
| ValueError
| TypeError
| ZeroDivisionError
| IOError
| PartitioningError.

Inductive result (A : Type) : Type :=
| Ok (a : A)
| Raise (e : exn).
Arguments Ok {A} a.
Arguments Raise {A} e.

Definition rbind {A B} (r : result A) (k : A -> result B) : result B :=
  match r with
  | Ok a => k a
  | Raise e => Raise e
  end.

Notation "x <~ e ;; k" := (rbind e (fun x => k))
  (at level 100, e at next level, right associativity, only parsing).

(** [arr[idx]] with an index list (numpy fancy indexing of non-negative
    indices): the selected elements in the order of [idx]; an index past the
    end raises [IndexError]. *)
Fixpoint take_rows {A} (arr : list A) (idx : list nat) : result (list A) :=
  match idx with
  | [] => Ok []
  | i :: idx' =>
      match arr !! i with
      | Some a => r <~ take_rows arr idx' ;; Ok (a :: r)
      | None => Raise IndexError
      end
  end.

(** [sorted(rows)] on integer indices. *)
Definition sorted (rows : list nat) : list nat := merge_sort le rows.

(** [part[a : a + b]] for non-negative [a], [b]. *)
Definition slice {A} (part : list A) (a b : nat) : list A := take b (drop a part).

(** [np.unique(labels, return_counts=True)]: the distinct values in ascending
    order and how often each occurs. *)
Definition np_unique (labels : list Z) : list Z :=
  merge_sort Z.le (remove_dups labels).

Definition np_unique_counts (labels : list Z) : list nat :=
  map (fun v => length (filter (fun x => x = v) labels)) (np_unique labels).

(** [np.where(arr == l)[0]]: the positions holding [l], ascending. *)
Fixpoint np_where_eq (arr : list Z) (l : Z) (pos : nat) : list nat :=
  match arr with
  | [] => []
  | x :: arr' =>
      if decide (x = l) then pos :: np_where_eq arr' l (S pos)
      else np_where_eq arr' l (S pos)
  end.

(** ** The environment: external numerics, random source, partitioning *)

(** What numpy, h5py and [gdal_tools] contribute.  [Feature] is one row of
    the [features] dataset for one view; [Img] is the patch series that
    [gdal_tools.get_patch_series] returns for a list of coordinates. *)
Class Numerics : Type := {
  Feature : Type;
  Coord : Type;
  Img : Type;
  RNG : Type;
  (* (x - VGGM) / VGGS on one feature row *)
  normalize_features : Feature -> Feature;
  (* (x - SATM) / SATS on a patch series *)
  normalize_satellite : Img -> Img;
  np_log : Img -> Img;
  (* gdal_tools.get_patch_series(coords, raster_name, height, width) *)
  get_patch_series : list (Coord * Coord) -> string -> nat -> nat -> Img;
  (* d += np.random.normal(loc=0, scale=0.05, size=d.shape) *)
  add_normal_noise : RNG -> list Feature -> list Feature * RNG;
  (* np.random.permutation(arr) *)
  np_random_permutation : RNG -> list nat -> list nat * RNG;
  np_random_permutation_perm :
    forall g l, Permutation l (np_random_permutation g l).1;
}.

(** One cell of the metadata table and of the prediction export. *)
Inductive cell : Type :=
| CStr (s : string)
| CInt (z : Z).

(** The metadata columns [img_id], [pcd], [oa11], [lsoa11] of one sample. *)
Record meta_row : Type := mkMeta {
  img_id : cell;
  pcd : cell;
  oa11 : cell;
  lsoa11 : cell;
}.

(** What a file holds: a value written by [pickle.dump] (the list of folds of
    the k-fold mode, or one index list) or a table written by
    [DataFrame.to_csv(fname, index=False)]. *)
Inductive file : Type :=
| PFolds (folds : list (list nat))
| PPart (part : list nat)
| Csv (columns : list string) (rows : list (list cell)).

(** The [partitioning] module.  Every partitioner may raise and may draw from
    numpy's global random state.  [decimate_partition_stratified] is used
    with no seed; its returned object is unpacked into two partitions by
    [Dataset_CrossValidation] and stored as one partition by the other
    classes, so the object stays abstract and both uses are operations. *)
Class Partitioning `{Numerics} : Type := {
  CLabel : Type;
  Decimated : Type;
  partition_stratified_kfold :
    nat -> list Z -> option Z -> option (list CLabel) -> RNG ->
    result (list (list nat) * RNG);
  get_partition_stratified_kfold :
    nat -> list (list nat) -> result (list nat * list nat);
  decimate_partition_stratified :
    list nat -> list Z -> Q -> option (list CLabel) -> RNG ->
    result (Decimated * RNG);
  (* a, b = obj *)
  decimated_unpack : Decimated -> result (list nat * list nat);
  (* obj used as an index list *)
  decimated_part : Decimated -> list nat;
  partition_stratified_validation :
    list Z -> Q -> Q -> option Z -> option (list CLabel) -> RNG ->
    result ((list nat * list nat * list nat) * RNG);
  partition_stratified :
    list Z -> Q -> option Z -> option (list CLabel) -> RNG ->
    result ((list nat * list nat) * RNG);
  partition_by_class :
    list Z -> option Z -> option Z -> RNG ->
    result ((list nat * list nat) * RNG);
}.

Definition map_labels (labels : list Z) : list Z := map (fun x => (x - 1)%Z) labels.

Section Model.
Context {N : Numerics} {P : Partitioning}.

(** ** The object *)

Record Dataset : Type := mkDataset {
  codes : list (list Feature);       (* imf['features'], shape (N, 4, D) *)
  labels : list Z;
  vmap : list meta_row;
  label_name : string;
  clabels : option (list CLabel);
  gsv_lat : list Coord;
  gsv_lng : list Coord;
  psat_size : nat;
  sat_raster_name : string;
  label_types : list Z;
  label_counts : list nat;
  num_labels : nat;
  batch_inds : list nat;
  batch_ind : nat;
  batch_ind_test : nat;
  batch_ind_valid : nat;
  train_part : list nat;
  test_part : list nat;
  validation_part : list nat;
  kpartitions : option (list (list nat));   (* Dataset_CrossValidation *)
  label_test : option Z;                    (* Dataset_TT_byclass *)
}.

(** The Python process state a method runs in. *)
Record state : Type := mkState {
  self : Dataset;
  np_random : RNG;
  files : gmap string file;
}.

Definition M (A : Type) : Type := state -> result (A * state).

Definition ret {A} (a : A) : M A := fun s => Ok (a, s).
Definition bind {A B} (m : M A) (k : A -> M B) : M B :=
  fun s => match m s with
           | Ok (a, s') => k a s'
           | Raise e => Raise e
           end.
Definition lift {A} (r : result A) : M A :=
  fun s => match r with Ok a => Ok (a, s) | Raise e => Raise e end.
Definition get_self : M Dataset := fun s => Ok (self s, s).
Definition set_self (d : Dataset) : M unit :=
  fun s => Ok (tt, mkState d (np_random s) (files s)).
(* run an operation of the random source on numpy's global state *)
Definition with_rng {A} (f : RNG -> A * RNG) : M A :=
  fun s => let '(a, g) := f (np_random s) in Ok (a, mkState (self s) g (files s)).
Definition with_rng_result {A} (f : RNG -> result (A * RNG)) : M A :=
  fun s => match f (np_random s) with
           | Ok (a, g) => Ok (a, mkState (self s) g (files s))
           | Raise e => Raise e
           end.

End Model.

Notation "x <- e ; k" := (bind e (fun x => k))
  (at level 100, e at next level, right associativity, only parsing).

Section Base.
Context {N : Numerics} {P : Partitioning}.

(** ** [Dataset.__init__]

    The constructor, given what it reads from the HDF5 file and from the
    label table: the [features] dataset, the raw label column, the metadata
    columns, the optional constraint column and the coordinates.  The label
    distribution [label_dist] is only printed and is left out. *)
Definition __init__ (features : list (list Feature)) (raw_labels : list Z)
    (meta : list meta_row) (label_name_ : string)
    (sat_image : string) (sat_patchsize : nat)
    (clabel_column : option (list CLabel))
    (lat lng : list Coord) : Dataset :=
  let labels_ := map_labels raw_labels in
  {| codes := features;
     labels := labels_;
     vmap := meta;
     label_name := label_name_;
     clabels := clabel_column;
     gsv_lat := lat;
     gsv_lng := lng;
     psat_size := sat_patchsize;
     sat_raster_name := sat_image;
     label_types := np_unique labels_;
     label_counts := np_unique_counts labels_;
     num_labels := length (np_unique labels_);
     batch_inds := replicate (length (np_unique labels_)) 0;
     batch_ind := 0;
     batch_ind_test := 0;
     batch_ind_valid := 0;
     train_part := [];
     test_part := [];
     validation_part := [];
     kpartitions := None;
     label_test := None |}.

(** ** [Dataset.get_data_part] *)

(** What [get_data_part] returns: the four views, the patch series and the
    one-hot label matrix (entries 0.0 and 1.0, written as integers). *)
Record batch : Type := mkBatch {
  d1 : list Feature;
  d2 : list Feature;
  d3 : list Feature;
  d4 : list Feature;
  img : Img;
  l_onehot : list (list Z);
}.

(** [normalize_features(self.codes[srows, k, :])]: view [k] of every
    selected sample, normalised.  (h5py wants the index list ascending,
    which [sorted] provides.) *)
Fixpoint take_view (mat : list (list Feature)) (k : nat) : result (list Feature) :=
  match mat with
  | [] => Ok []
  | r :: mat' =>
      match r !! k with
      | Some x => t <~ take_view mat' k ;; Ok (normalize_features x :: t)
      | None => Raise IndexError
      end
  end.

Definition codes_view (d : Dataset) (srows : list nat) (k : nat)
  : result (list Feature) :=
  mat <~ take_rows (codes d) srows ;; take_view mat k.

(** Row of the label matrix for a sample of label [lab]: column [k] is 1
    when [label_types[k] == lab]. *)
Definition one_hot_row (d : Dataset) (lab : Z) : list Z :=
  map (fun k => match label_types d !! k with
                | Some lab_ => if decide (lab = lab_) then 1%Z else 0%Z
                | None => 0%Z
                end) (seq 0 (num_labels d)).

(** The noise-free body of [get_data_part] on the sorted indices. *)
Definition data_part (d : Dataset) (srows : list nat) : result batch :=
  d1 <~ codes_view d srows 0 ;;
  d2 <~ codes_view d srows 1 ;;
  d3 <~ codes_view d srows 2 ;;
  d4 <~ codes_view d srows 3 ;;
  lpart <~ take_rows (labels d) srows ;;
  lats <~ take_rows (gsv_lat d) srows ;;
  lngs <~ take_rows (gsv_lng d) srows ;;
  let patches := get_patch_series (zip lats lngs) (sat_raster_name d)
                   (psat_size d) (psat_size d) in
  Ok {| d1 := d1; d2 := d2; d3 := d3; d4 := d4;
        img := normalize_satellite (np_log patches);
        l_onehot := map (one_hot_row d) lpart |}.

Definition get_data_part (rows : list nat) (noise_std : option Q) : M batch :=
  d <- get_self ;
  let srows := sorted rows in
  v1 <- lift (codes_view d srows 0) ;
  v2 <- lift (codes_view d srows 1) ;
  v3 <- lift (codes_view d srows 2) ;
  v4 <- lift (codes_view d srows 3) ;
  vs <- match noise_std with
        | None => ret (v1, v2, v3, v4)
        | Some _ =>
            n1 <- with_rng (fun g => add_normal_noise g v1) ;
            n2 <- with_rng (fun g => add_normal_noise g v2) ;
            n3 <- with_rng (fun g => add_normal_noise g v3) ;
            n4 <- with_rng (fun g => add_normal_noise g v4) ;
            ret (n1, n2, n3, n4)
        end ;
  let '(w1, w2, w3, w4) := vs in
  lpart <- lift (take_rows (labels d) srows) ;
  lats <- lift (take_rows (gsv_lat d) srows) ;
  lngs <- lift (take_rows (gsv_lng d) srows) ;
  let patches := get_patch_series (zip lats lngs) (sat_raster_name d)
                   (psat_size d) (psat_size d) in
  ret {| d1 := w1; d2 := w2; d3 := w3; d4 := w4;
         img := normalize_satellite (np_log patches);
         l_onehot := map (one_hot_row d) lpart |}.

(** ** Attribute assignment *)

Definition with_batch_ind (n : nat) (d : Dataset) : Dataset :=
  mkDataset (codes d) (labels d) (vmap d) (label_name d) (clabels d)
    (gsv_lat d) (gsv_lng d) (psat_size d) (sat_raster_name d)
    (label_types d) (label_counts d) (num_labels d) (batch_inds d)
    n (batch_ind_test d) (batch_ind_valid d)
    (train_part d) (test_part d) (validation_part d)
    (kpartitions d) (label_test d).

Definition with_batch_ind_test (n : nat) (d : Dataset) : Dataset :=
  mkDataset (codes d) (labels d) (vmap d) (label_name d) (clabels d)
    (gsv_lat d) (gsv_lng d) (psat_size d) (sat_raster_name d)
    (label_types d) (label_counts d) (num_labels d) (batch_inds d)
    (batch_ind d) n (batch_ind_valid d)
    (train_part d) (test_part d) (validation_part d)
    (kpartitions d) (label_test d).

Definition with_batch_ind_valid (n : nat) (d : Dataset) : Dataset :=
  mkDataset (codes d) (labels d) (vmap d) (label_name d) (clabels d)
    (gsv_lat d) (gsv_lng d) (psat_size d) (sat_raster_name d)
    (label_types d) (label_counts d) (num_labels d) (batch_inds d)
    (batch_ind d) (batch_ind_test d) n
    (train_part d) (test_part d) (validation_part d)
    (kpartitions d) (label_test d).

Definition with_train_part (p : list nat) (d : Dataset) : Dataset :=
  mkDataset (codes d) (labels d) (vmap d) (label_name d) (clabels d)
    (gsv_lat d) (gsv_lng d) (psat_size d) (sat_raster_name d)
    (label_types d) (label_counts d) (num_labels d) (batch_inds d)
    (batch_ind d) (batch_ind_test d) (batch_ind_valid d)
    p (test_part d) (validation_part d)
    (kpartitions d) (label_test d).

Definition with_test_part (p : list nat) (d : Dataset) : Dataset :=
  mkDataset (codes d) (labels d) (vmap d) (label_name d) (clabels d)
    (gsv_lat d) (gsv_lng d) (psat_size d) (sat_raster_name d)
    (label_types d) (label_counts d) (num_labels d) (batch_inds d)
    (batch_ind d) (batch_ind_test d) (batch_ind_valid d)
    (train_part d) p (validation_part d)
    (kpartitions d) (label_test d).

Definition with_validation_part (p : list nat) (d : Dataset) : Dataset :=
  mkDataset (codes d) (labels d) (vmap d) (label_name d) (clabels d)
    (gsv_lat d) (gsv_lng d) (psat_size d) (sat_raster_name d)
    (label_types d) (label_counts d) (num_labels d) (batch_inds d)
    (batch_ind d) (batch_ind_test d) (batch_ind_valid d)
    (train_part d) (test_part d) p
    (kpartitions d) (label_test d).

Definition with_kpartitions (k : list (list nat)) (d : Dataset) : Dataset :=
  mkDataset (codes d) (labels d) (vmap d) (label_name d) (clabels d)
    (gsv_lat d) (gsv_lng d) (psat_size d) (sat_raster_name d)
    (label_types d) (label_counts d) (num_labels d) (batch_inds d)
    (batch_ind d) (batch_ind_test d) (batch_ind_valid d)
    (train_part d) (test_part d) (validation_part d)
    (Some k) (label_test d).

Definition with_label_test (t : option Z) (d : Dataset) : Dataset :=
  mkDataset (codes d) (labels d) (vmap d) (label_name d) (clabels d)
    (gsv_lat d) (gsv_lng d) (psat_size d) (sat_raster_name d)
    (label_types d) (label_counts d) (num_labels d) (batch_inds d)
    (batch_ind d) (batch_ind_test d) (batch_ind_valid d)
    (train_part d) (test_part d) (validation_part d)
    (kpartitions d) t.

(* self.attr = value *)
Definition assign (f : Dataset -> Dataset) : M unit :=
  d <- get_self ; set_self (f d).

(** ** Sequential batch getters *)

Definition get_train_batch (batch_size : nat) : M batch :=
  d <- get_self ;
  let rows := slice (train_part d) (batch_ind d) batch_size in
  b <- get_data_part rows None ;
  d <- get_self ;
  _ <- assign (with_batch_ind (batch_ind d + batch_size)) ;
  d <- get_self ;
  _ <- (if decide (length (train_part d) <= batch_ind d)
        then assign (with_batch_ind 0) else ret tt) ;
  ret b.

Definition get_validation_batch (batch_size : nat) : M batch :=
  d <- get_self ;
  let rows := slice (validation_part d) (batch_ind_valid d) batch_size in
  b <- get_data_part rows None ;
  d <- get_self ;
  _ <- assign (with_batch_ind_valid (batch_ind_valid d + batch_size)) ;
  d <- get_self ;
  _ <- (if decide (length (validation_part d) <= batch_ind_valid d)
        then assign (with_batch_ind_valid 0) else ret tt) ;
  ret b.

Definition get_test_batch (batch_size : nat) : M batch :=
  d <- get_self ;
  let rows := slice (test_part d) (batch_ind_test d) batch_size in
  b <- get_data_part rows None ;
  d <- get_self ;
  _ <- assign (with_batch_ind_test (batch_ind_test d + batch_size)) ;
  d <- get_self ;
  _ <- (if decide (length (test_part d) <= batch_ind_test d)
        then assign (with_batch_ind_test 0) else ret tt) ;
  ret b.

(** ** Whole-partition getters *)

Definition get_train_data : M batch :=
  d <- get_self ; get_data_part (train_part d) None.

Definition get_validation_data : M batch :=
  d <- get_self ; get_data_part (validation_part d) None.

Definition get_test_data : M batch :=
  d <- get_self ; get_data_part (test_part d) None.

(** ** Balanced batch getters *)

(** The loop over [self.label_types] of the balanced getters, on the
    partition [part]: for each class the positions of [part] holding it are
    permuted, the first [lbatch_size] kept and mapped back to sample
    indices. *)
Fixpoint balanced_rows (d : Dataset) (part : list nat)
    (lbatch_size : nat) (types : list Z) (rows : list nat) : M (list nat) :=
  match types with
  | [] => ret rows
  | lab :: types' =>
      part_labels <- lift (take_rows (labels d) part) ;
      perm <- with_rng (fun g =>
                np_random_permutation g (np_where_eq part_labels lab 0)) ;
      let lrows := take lbatch_size perm in
      picked <- lift (take_rows part lrows) ;
      balanced_rows d part lbatch_size types' (rows ++ picked)
  end.

Definition get_balanced_train_batch (batch_size : nat) : M batch :=
  d <- get_self ;
  let lsize := length (label_types d) in
  _ <- (if decide (lsize = 0) then lift (Raise ZeroDivisionError) else ret tt) ;
  let lbatch_size := batch_size / lsize in
  rows <- balanced_rows d (train_part d) lbatch_size (label_types d) [] ;
  get_data_part rows None.

Definition get_balanced_validation_batch (batch_size : nat) : M batch :=
  d <- get_self ;
  let lsize := length (label_types d) in
  _ <- (if decide (lsize = 0) then lift (Raise ZeroDivisionError) else ret tt) ;
  let lbatch_size := batch_size / lsize in
  rows <- balanced_rows d (validation_part d) lbatch_size (label_types d) [] ;
  get_data_part rows None.

(** ** Iterators

    A generator is the list of its steps: the part before the loop runs when
    the iterator is started and fixes the number of steps; each step is a
    method body run on demand in the state of that moment.  [for x in it]
    is [drain]. *)

(* np.int(np.ceil(n / batch_num)) *)
Definition ceil_div (n batch_num : nat) : nat :=
  if decide (n mod batch_num = 0) then n / batch_num else S (n / batch_num).

Fixpoint drain {A} (steps : list (M A)) : M (list A) :=
  match steps with
  | [] => ret []
  | step :: steps' =>
      a <- step ;
      r <- drain steps' ;
      ret (a :: r)
  end.

Definition test_iterator (batch_num : nat)
  : M (list (M (batch * list meta_row))) :=
  d <- get_self ;
  _ <- (if decide (batch_num = 0) then lift (Raise ZeroDivisionError) else ret tt) ;
  let num_iter := ceil_div (length (test_part d)) batch_num in
  ret (map (fun n =>
              d <- get_self ;
              let rows := slice (test_part d) (n * batch_num) batch_num in
              b <- get_data_part rows None ;
              d <- get_self ;
              m <- lift (take_rows (vmap d) (sorted rows)) ;
              ret (b, m))
           (seq 0 num_iter)).

Definition validation_iterator (batch_num : nat) : M (list (M batch)) :=
  d <- get_self ;
  _ <- (if decide (batch_num = 0) then lift (Raise ZeroDivisionError) else ret tt) ;
  let num_iter := ceil_div (length (validation_part d)) batch_num in
  ret (map (fun n =>
              d <- get_self ;
              let rows := slice (validation_part d) (n * batch_num) batch_num in
              get_data_part rows None)
           (seq 0 num_iter)).

(** ** Prediction export *)

Definition write_file (fname : string) (c : file) : M unit :=
  fun s => Ok (tt, mkState (self s) (np_random s) (<[fname := c]> (files s))).

(** The body shared by [write_preds] and the [write_preds_validation] of the
    subclasses, on the partition [part].  [np.append(..., axis=1)] raises
    [ValueError] when the row counts differ. *)
Definition write_preds_of (part : Dataset -> list nat)
    (preds : list cell) (fname : string) : M unit :=
  d <- get_self ;
  let srows := sorted (part d) in
  meta <- lift (take_rows (vmap d) srows) ;
  labs <- lift (take_rows (labels d) srows) ;
  let data_matrix :=
    zip_with (fun m lab => [img_id m; pcd m; oa11 m; lsoa11 m; CInt lab])
             meta labs in
  _ <- (if decide (length data_matrix = length preds)
        then ret tt else lift (Raise ValueError)) ;
  let data_matrix := zip_with (fun r p => r ++ [p]) data_matrix preds in
  write_file fname
    (Csv ["img_id"; "pcd"; "oa11"; "lsoa11"; label_name d; "predicted"]%string
         data_matrix).

Definition write_preds (preds : list cell) (fname : string) : M unit :=
  write_preds_of test_part preds fname.

End Base.

(** ** [soften_ordinal_labels]

    The label matrix is the one [get_data_part] builds: 64-bit floats with
    the values 0.0 and 1.0, written as integers.  The softening weight [m]
    and the entries it produces are floats; their arithmetic stays abstract.
    The rows of a 2-D array all have [shape[1]] entries; the model reads
    [shape[1]] off the row at hand. *)

Class Floats : Type := {
  F64 : Type;
  F32 : Type;
  f64_of_Z : Z -> F64;            (* an entry left as it is *)
  one_minus : F64 -> F64;         (* 1.0 - m *)
  half : F64 -> F64;              (* m / 2.0 *)
  astype_float32 : F64 -> F32;    (* .astype(np.float32) *)
}.

(* np.argmax of a vector: the first position of the largest entry *)
Fixpoint argmax_from (best : Z) (best_pos pos : nat) (row : list Z) : nat :=
  match row with
  | [] => best_pos
  | x :: row' =>
      if decide (best < x)%Z then argmax_from x pos (S pos) row'
      else argmax_from best best_pos (S pos) row'
  end.

Definition np_argmax (row : list Z) : result nat :=
  match row with
  | [] => Raise ValueError
  | x :: row' => Ok (argmax_from x 0 1 row')
  end.

(* row[j] = v for a non-negative j *)
Definition set_col {A} (row : list A) (j : nat) (v : A) : result (list A) :=
  if decide (j < length row) then Ok (<[j := v]> row) else Raise IndexError.

(* row[-2] = v *)
Definition set_col_minus2 {A} (row : list A) (v : A) : result (list A) :=
  if decide (2 <= length row) then Ok (<[length row - 2 := v]> row)
  else Raise IndexError.

Section Soften.
Context {FL : Floats}.

(* labels_[labels == 1] = 1.0 - m, on one row *)
Definition soften_hot (m : F64) (row : list Z) : list F64 :=
  map (fun x => if decide (x = 1%Z) then one_minus m else f64_of_Z x) row.

(* the body of the loop, for the row [row] of [labels] and [row_] of
   [labels_] *)
Definition soften_row (m : F64) (row : list Z) (row_ : list F64)
  : result (list F64) :=
  maxindex <~ np_argmax row ;;
  if decide (maxindex = 0) then set_col row_ 1 m
  else if decide (maxindex = length row - 1) then set_col_minus2 row_ m
  else
    r <~ set_col row_ (maxindex - 1) (half m) ;;
    set_col r (maxindex + 1) (half m).

Fixpoint soften_rows (m : F64) (labels : list (list Z))
    (labels_ : list (list F64)) : result (list (list F64)) :=
  match labels, labels_ with
  | row :: labels', row_ :: labels_' =>
      r <~ soften_row m row row_ ;;
      rest <~ soften_rows m labels' labels_' ;;
      Ok (r :: rest)
  | _, _ => Ok []
  end.

Definition soften_ordinal_labels (labels : list (list Z)) (m : F64)
  : result (list (list F32)) :=
  let labels_ := map (soften_hot m) labels in
  r <~ soften_rows m labels labels_ ;;
  Ok (map (map astype_float32) r).

End Soften.

(** ** Partition files *)

Section Store.
Context {N : Numerics} {P : Partitioning}.

(* pickle.dump(obj, open(path, 'wb')) *)
Definition pickle_dump (obj : file) (path : string) : M unit :=
  write_file path obj.

(* pickle.load(open(path, 'rb')): a missing file raises *)
Definition pickle_load (path : string) : M file :=
  fun s => match files s !! path with
           | Some obj => Ok (obj, s)
           | None => Raise IOError
           end.

(** The loaded object used as one index list, respectively as the list of
    folds.  (Python would fail at the first use of an object of the wrong
    shape rather than here.) *)
Definition as_part (obj : file) : M (list nat) :=
  match obj with
  | PPart p => ret p
  | _ => lift (Raise TypeError)
  end.

Definition as_folds (obj : file) : M (list (list nat)) :=
  match obj with
  | PFolds k => ret k
  | _ => lift (Raise TypeError)
  end.

(** The tail shared by the [pick_label] of [Dataset_TVT], [Dataset_TT] and
    [Dataset_TT_byclass]: [psize < 1.0] takes a fresh stratified subset of
    the training partition, drawn without a seed. *)
Definition pick_train_part (_train_part : list nat) (psize : Q) : M unit :=
  if Qlt_le_dec psize 1 then
    d <- get_self ;
    dec <- with_rng_result
             (decimate_partition_stratified _train_part (labels d) psize None) ;
    assign (with_train_part (decimated_part dec))
  else
    assign (with_train_part _train_part).

End Store.

Module Dataset_CrossValidation.
Section Methods.
Context {N : Numerics} {P : Partitioning}.

Definition pick_label (part_gen : Z) (part_file : string)
    (part_kn part_kp : nat) (vsize : Q) (seed : option Z) : M unit :=
  _ <- (if decide (part_gen = 1%Z) then
          d <- get_self ;
          k <- with_rng_result
                 (partition_stratified_kfold part_kn (labels d) seed (clabels d)) ;
          _ <- assign (with_kpartitions k) ;
          d <- get_self ;
          k <- with_rng_result
                 (partition_stratified_kfold part_kn (labels d) seed (clabels d)) ;
          _ <- assign (with_kpartitions k) ;
          pickle_dump (PFolds k) part_file
        else
          obj <- pickle_load part_file ;
          k <- as_folds obj ;
          assign (with_kpartitions k)) ;
  d <- get_self ;
  k <- lift (match kpartitions d with
             | Some k => Ok k
             | None => Raise TypeError
             end) ;
  tt_ <- lift (get_partition_stratified_kfold part_kp k) ;
  let '(_train_part, test) := tt_ in
  _ <- assign (with_test_part test) ;
  if Qlt_le_dec 0 vsize then
    d <- get_self ;
    dec <- with_rng_result
             (decimate_partition_stratified _train_part (labels d)
                (1 - vsize)%Q (clabels d)) ;
    tv <- lift (decimated_unpack dec) ;
    _ <- assign (with_train_part tv.1) ;
    assign (with_validation_part tv.2)
  else
    assign (with_train_part _train_part).

End Methods.
End Dataset_CrossValidation.

Module Dataset_TVT.
Section Methods.
Context {N : Numerics} {P : Partitioning}.

Definition pick_label (part_gen : Z) (part_file : string)
    (train_size valid_size psize : Q) (seed : option Z) : M unit :=
  _train_part <-
    (if decide (part_gen = 1%Z) then
       d <- get_self ;
       tvt <- with_rng_result
                (partition_stratified_validation (labels d) train_size
                   valid_size seed (clabels d)) ;
       let '(_train_part, validation, test) := tvt in
       _ <- assign (with_validation_part validation) ;
       _ <- assign (with_test_part test) ;
       _ <- pickle_dump (PPart _train_part) (part_file +:+ "_train") ;
       _ <- pickle_dump (PPart validation) (part_file +:+ "_validation") ;
       _ <- pickle_dump (PPart test) (part_file +:+ "_test") ;
       ret _train_part
     else
       o1 <- pickle_load (part_file +:+ "_train") ;
       _train_part <- as_part o1 ;
       o2 <- pickle_load (part_file +:+ "_validation") ;
       validation <- as_part o2 ;
       _ <- assign (with_validation_part validation) ;
       o3 <- pickle_load (part_file +:+ "_test") ;
       test <- as_part o3 ;
       _ <- assign (with_test_part test) ;
       ret _train_part) ;
  pick_train_part _train_part psize.

Definition write_preds_validation (preds : list cell) (fname : string) : M unit :=
  write_preds_of validation_part preds fname.

End Methods.
End Dataset_TVT.

Module Dataset_TT.
Section Methods.
Context {N : Numerics} {P : Partitioning}.

Definition pick_label (part_gen : Z) (part_file : string)
    (train_size psize : Q) (seed : option Z) : M unit :=
  _train_part <-
    (if decide (part_gen = 1%Z) then
       d <- get_self ;
       tt_ <- with_rng_result
                (partition_stratified (labels d) train_size seed (clabels d)) ;
       let '(_train_part, test) := tt_ in
       _ <- assign (with_test_part test) ;
       _ <- pickle_dump (PPart _train_part) (part_file +:+ "_train") ;
       _ <- pickle_dump (PPart test) (part_file +:+ "_test") ;
       ret _train_part
     else
       o1 <- pickle_load (part_file +:+ "_train") ;
       _train_part <- as_part o1 ;
       o2 <- pickle_load (part_file +:+ "_test") ;
       test <- as_part o2 ;
       _ <- assign (with_test_part test) ;
       ret _train_part) ;
  pick_train_part _train_part psize.

Definition get_validation_batch (batch_size : nat) : M batch :=
  get_train_batch batch_size.

Definition get_balanced_validation_batch (batch_size : nat) : M batch :=
  get_balanced_train_batch batch_size.

Definition write_preds_validation (preds : list cell) (fname : string) : M unit :=
  write_preds_of validation_part preds fname.

End Methods.
End Dataset_TT.

Module Dataset_TT_byclass.
Section Methods.
Context {N : Numerics} {P : Partitioning}.

Definition __init__ (features : list (list Feature)) (raw_labels : list Z)
    (meta : list meta_row) (label_name_ : string)
    (sat_image : string) (sat_patchsize : nat)
    (clabel_column : option (list CLabel))
    (lat lng : list Coord) (label_test_ : option Z) : Dataset :=
  with_label_test label_test_
    (__init__ features raw_labels meta label_name_ sat_image sat_patchsize
       clabel_column lat lng).

Definition pick_label (part_gen : Z) (part_file : string)
    (train_size psize : Q) (seed : option Z) : M unit :=
  _train_part <-
    (if decide (part_gen = 1%Z) then
       d <- get_self ;
       tt_ <- with_rng_result
                (partition_by_class (labels d) (label_test d) seed) ;
       let '(_train_part, test) := tt_ in
       _ <- assign (with_test_part test) ;
       _ <- pickle_dump (PPart _train_part) (part_file +:+ "_train") ;
       _ <- pickle_dump (PPart test) (part_file +:+ "_test") ;
       ret _train_part
     else
       o1 <- pickle_load (part_file +:+ "_train") ;
       _train_part <- as_part o1 ;
       o2 <- pickle_load (part_file +:+ "_test") ;
       test <- as_part o2 ;
       _ <- assign (with_test_part test) ;
       ret _train_part) ;
  pick_train_part _train_part psize.

Definition get_validation_batch (batch_size : nat) : M batch :=
  get_train_batch batch_size.

Definition get_balanced_validation_batch (batch_size : nat) : M batch :=
  get_balanced_train_batch batch_size.

Definition write_preds_validation (preds : list cell) (fname : string) : M unit :=
  write_preds_of validation_part preds fname.

End Methods.
End Dataset_TT_byclass.

(** ** A small environment to run the model on

    Features and coordinates are integers, normalisation and patch lookup
    are the identity on them, and the random state is a counter: the n-th
    permutation drawn rotates its argument by n. *)

Module Scenario.

Definition perm (g : nat) (arr : list nat) : list nat * nat := (rotate g arr, S g).

Lemma perm_Permutation g arr : Permutation arr (perm g arr).1.
Proof.
  unfold perm, rotate; simpl.
  rewrite Permutation_app_comm. by rewrite take_drop.
Qed.

Definition numerics : Numerics :=
  {| Feature := Z;
     Coord := Z;
     Img := list (Z * Z);
     RNG := nat;
     normalize_features := fun x => x;
     normalize_satellite := fun x => x;
     np_log := fun x => x;
     get_patch_series := fun coords _ _ _ => coords;
     add_normal_noise := fun g v => (v, S g);
     np_random_permutation := perm;
     np_random_permutation_perm := perm_Permutation |}.

(** The functions of [partitioning.py], which is not among the sources at
    hand, follow section 4.1 of the specification, without constraint
    groups.  A seed, when given, replaces the random state. *)

Definition of_class (labels : list Z) (c : Z) (part : list nat) : list nat :=
  filter (fun i => labels !! i = Some c) part.

Definition classes_of (labels : list Z) (part : list nat) : list Z :=
  np_unique (omap (fun i => labels !! i) part).

(* round(fraction * count) *)
Definition round_frac (fraction : Q) (count : nat) : nat :=
  Z.to_nat (Qfloor (fraction * inject_Z (Z.of_nat count) + (1 # 2))).

Definition seeded (seed : option Z) (g : nat) : nat :=
  match seed with
  | Some z => Z.to_nat z
  | None => g
  end.

(** Per class: permute the class's members of [part], keep the first
    [round(fraction * count)], leave the others. *)
Fixpoint split_classes (labels : list Z) (fraction : Q) (classes : list Z)
    (part : list nat) (g : nat) : (list nat * list nat) * nat :=
  match classes with
  | [] => (([], []), g)
  | c :: classes' =>
      let '(p, g1) := perm g (of_class labels c part) in
      let n := round_frac fraction (length p) in
      let '((kept, rest), g2) := split_classes labels fraction classes' part g1 in
      ((take n p ++ kept, drop n p ++ rest), g2)
  end.

(** Modelled from the spec: [decimate_partition_stratified], absent from the
    sources; a stratified subset of [keep_fraction * |partition|] samples of
    an existing partition, and the remainder. *)
Definition decimate (part : list nat) (labels : list Z) (psize : Q)
    (_ : option (list Empty_set)) (g : nat)
  : result ((list nat * list nat) * nat) :=
  Ok (split_classes labels psize (classes_of labels part) part g).

(** Modelled from the spec: [partition_stratified], absent from the sources;
    each class gives [round(train_fraction * count)] samples to train and
    the others to test. *)
Definition stratified (labels : list Z) (train_fraction : Q) (seed : option Z)
    (_ : option (list Empty_set)) (g : nat)
  : result ((list nat * list nat) * nat) :=
  let part := seq 0 (length labels) in
  Ok (split_classes labels train_fraction (classes_of labels part) part
        (seeded seed g)).

(** Modelled from the spec: [partition_stratified_validation], absent from
    the sources; two chained two-way splits. *)
Definition stratified_validation (labels : list Z)
    (train_fraction validation_fraction : Q) (seed : option Z)
    (_ : option (list Empty_set)) (g : nat)
  : result ((list nat * list nat * list nat) * nat) :=
  let part := seq 0 (length labels) in
  let '((train, rest), g1) :=
    split_classes labels train_fraction (classes_of labels part) part
      (seeded seed g) in
  let '((validation, test), g2) :=
    split_classes labels (validation_fraction / (1 - train_fraction))
      (classes_of labels rest) rest g1 in
  Ok ((train, validation, test), g2).

(* the members of [dealt] at the positions congruent to [j] modulo [k] *)
Definition every_kth (k j : nat) (dealt : list nat) : list nat :=
  omap (fun pos => if decide (pos mod k = j) then dealt !! pos else None)
       (seq 0 (length dealt)).

(** Modelled from the spec: [partition_stratified_kfold], absent from the
    sources; each class's samples are dealt round-robin into [k] folds. *)
Definition stratified_kfold (k : nat) (labels : list Z) (seed : option Z)
    (_ : option (list Empty_set)) (g : nat)
  : result (list (list nat) * nat) :=
  if decide (k = 0) then Raise ValueError
  else
    let part := seq 0 (length labels) in
    let '((dealt, _), g1) :=
      split_classes labels 1 (classes_of labels part) part (seeded seed g) in
    Ok (map (fun j => every_kth k j dealt) (seq 0 k), g1).

(** Modelled from the spec: [get_partition_stratified_kfold], absent from
    the sources; test is the fold [fold_index], train the union of the
    others, and a fold index out of range fails. *)
Definition kfold_partition (fold_index : nat) (kpartitions : list (list nat))
  : result (list nat * list nat) :=
  match kpartitions !! fold_index with
  | Some test => Ok (concat (delete fold_index kpartitions), test)
  | None => Raise IndexError
  end.

(** Modelled from the spec: [partition_by_class], absent from the sources;
    test is the held-out class, train everything else. *)
Definition by_class (labels : list Z) (held_out_class : option Z)
    (seed : option Z) (g : nat)
  : result ((list nat * list nat) * nat) :=
  let part := seq 0 (length labels) in
  Ok ((filter (fun i => labels !! i ≠ held_out_class) part,
       filter (fun i => labels !! i = held_out_class) part), g).

Definition partitioning : @Partitioning numerics :=
  @Build_Partitioning numerics
    Empty_set                   (* CLabel *)
    (list nat * list nat)%type  (* Decimated *)
    stratified_kfold
    kfold_partition
    decimate
    (fun obj => Ok obj)         (* decimated_unpack *)
    (fun obj => obj.1)          (* decimated_part *)
    stratified_validation
    stratified
    by_class.

(** Twelve samples with raw labels 1 1 1 1 2 2 2 2 3 3 3 3 (classes 0, 1, 2
    after [map_labels]), four one-entry views each. *)
Definition sample_ids : list Z := [0; 1; 2; 3; 4; 5; 6; 7; 8; 9; 10; 11]%Z.

Definition sample_codes : list (list Z) :=
  map (fun i => [10 * i; 10 * i + 1; 10 * i + 2; 10 * i + 3]%Z) sample_ids.

Definition sample_meta : list meta_row :=
  map (fun i => mkMeta (CInt (100 + i)) (CStr "pcd") (CStr "oa") (CStr "lsoa"))
      sample_ids.

Definition fresh : @Dataset numerics partitioning :=
  __init__ (P := partitioning) sample_codes
    [1; 1; 1; 1; 2; 2; 2; 2; 3; 3; 3; 3]%Z sample_meta
    "decile" "raster.tif" 8 None
    (map (fun i => 50 + i)%Z sample_ids) sample_ids.

(** The object right after construction, in a process with random state
    [g] and no partition file. *)
Definition created (g : nat) : @state numerics partitioning :=
  mkState fresh g ∅.

(** The object with partitions assigned. *)
Definition partitioned (train validation test : list nat) (g : nat)
  : @state numerics partitioning :=
  mkState
    (with_train_part train
       (with_validation_part validation (with_test_part test fresh)))
    g ∅.

End Scenario.

(** ** Vocabulary of the statements *)

Section Vocabulary.
Context {N : Numerics} {P : Partitioning}.

(** View [k] of sample [i] as [get_data_part] returns it. *)
Definition sample_view (d : Dataset) (k i : nat) : option Feature :=
  codes d !! i ≫= fun r => normalize_features <$> r !! k.

(** Sample [i] exists in every array [get_data_part] reads. *)
Definition readable (d : Dataset) (i : nat) : Prop :=
  (forall k, k < 4 -> is_Some (sample_view d k i)) /\
  i < length (labels d) /\ i < length (gsv_lat d) /\ i < length (gsv_lng d).

(** The same as a check. *)
Definition readableb (d : Dataset) (i : nat) : bool :=
  forallb (fun k => bool_decide (is_Some (sample_view d k i))) [0; 1; 2; 3]
  && bool_decide (i < length (labels d))
  && bool_decide (i < length (gsv_lat d))
  && bool_decide (i < length (gsv_lng d)).

(** The batch [b] holds the samples [srows], row [j] of every component
    belonging to sample [srows[j]]. *)
Record holds_samples (d : Dataset) (srows : list nat) (b : batch) : Prop := {
  hs_d1 : Forall2 (fun i x => sample_view d 0 i = Some x) srows (d1 b);
  hs_d2 : Forall2 (fun i x => sample_view d 1 i = Some x) srows (d2 b);
  hs_d3 : Forall2 (fun i x => sample_view d 2 i = Some x) srows (d3 b);
  hs_d4 : Forall2 (fun i x => sample_view d 3 i = Some x) srows (d4 b);
  hs_l : Forall2 (fun i row => one_hot_row d <$> labels d !! i = Some row)
           srows (l_onehot b);
  hs_img : exists lats lngs,
      Forall2 (fun i c => gsv_lat d !! i = Some c) srows lats /\
      Forall2 (fun i c => gsv_lng d !! i = Some c) srows lngs /\
      img b = normalize_satellite (np_log
                (get_patch_series (zip lats lngs) (sat_raster_name d)
                   (psat_size d) (psat_size d)));
}.

(** The state [s] with the object replaced. *)
Definition with_self (d : Dataset) (s : state) : state :=
  mkState d (np_random s) (files s).

(** [m] run in [s] returns [a] and leaves the state [s']. *)
Definition returns {A} (m : M A) (s : state) (a : A) (s' : state) : Prop :=
  m s = Ok (a, s').

(** The cursor after a sequential getter served [batch_size] indices of a
    partition of [len] indices from cursor [cur]. *)
Definition next_cursor (len cur batch_size : nat) : nat :=
  if decide (len <= cur + batch_size) then 0 else cur + batch_size.

(** [batches] are the batches of one pass over [part] in steps of
    [batch_size]: batch [n] holds the samples of [part[n*b : (n+1)*b]] (in
    ascending index order, as [get_data_part] returns them), the slices
    concatenate to [part], every slice but the last has [batch_size] indices
    and the last has between one and [batch_size]. *)
Definition slices (part : list nat) (b k : nat) : list (list nat) :=
  map (fun n => slice part (n * b) b) (seq 0 k).

Record one_pass (d : Dataset) (part : list nat) (batch_size : nat)
    (batches : list batch) : Prop := {
  pass_count : length batches = ceil_div (length part) batch_size;
  pass_rows :
    Forall2 (fun rows b => holds_samples d (sorted rows) b)
      (slices part batch_size (ceil_div (length part) batch_size)) batches;
  pass_concat :
    concat (slices part batch_size (ceil_div (length part) batch_size)) = part;
  pass_full : forall n,
    S n < ceil_div (length part) batch_size ->
    length (slice part (n * batch_size) batch_size) = batch_size;
  pass_last : forall n,
    S n = ceil_div (length part) batch_size ->
    0 < length (slice part (n * batch_size) batch_size) <= batch_size;
}.

(** From cursor 0, [ceil(|part| / batch_size)] consecutive calls of [getter]
    make one pass over [part], put the state back where it started, and the
    call after them serves the first slice again. *)
Definition serves_epoch (getter : nat -> M batch) (part : list nat)
    (s : state) (batch_size : nat) : Prop :=
  exists batches,
    returns (drain (replicate (ceil_div (length part) batch_size)
                      (getter batch_size))) s batches s /\
    one_pass (self s) part batch_size batches /\
    exists b s1,
      returns (getter batch_size) s b s1 /\
      holds_samples (self s) (sorted (slice part 0 batch_size)) b.

(** How many of [rows] are samples of class [c]. *)
Definition class_count (d : Dataset) (c : Z) (rows : list nat) : nat :=
  length (filter (fun i => labels d !! i = Some c) rows).

(** What the constructor establishes about the label columns. *)
Definition constructed (d : Dataset) : Prop :=
  label_types d = np_unique (labels d) /\
  num_labels d = length (label_types d).

(** The batch of no samples. *)
Definition empty_batch (d : Dataset) : batch :=
  {| d1 := []; d2 := []; d3 := []; d4 := [];
     img := normalize_satellite (np_log
              (get_patch_series [] (sat_raster_name d) (psat_size d) (psat_size d)));
     l_onehot := [] |}.

(** The state with the three cursors set to [c], [cv], [ct]. *)
Definition with_cursors (c cv ct : nat) (s : state) : state :=
  with_self
    (with_batch_ind c (with_batch_ind_valid cv (with_batch_ind_test ct (self s))))
    s.

(** The indices are rows of the metadata table. *)
Definition has_meta (d : Dataset) (rows : list nat) : bool :=
  forallb (fun i => bool_decide (i < length (vmap d))) rows.

(** The columns of the prediction export. *)
Definition export_columns (d : Dataset) : list string :=
  ["img_id"; "pcd"; "oa11"; "lsoa11"; label_name d; "predicted"]%string.

(** Row [j] of the export belongs to sample [srows[j]] and carries
    [preds[j]]. *)
Definition export_rows (d : Dataset) (srows : list nat) (preds : list cell)
    (rows : list (list cell)) : Prop :=
  length rows = length srows /\
  forall j i, srows !! j = Some i ->
    exists m lab p,
      vmap d !! i = Some m /\ labels d !! i = Some lab /\
      preds !! j = Some p /\
      rows !! j = Some [img_id m; pcd m; oa11 m; lsoa11 m; CInt lab; p].

(** The indices are rows of the metadata table and of the label column. *)
Definition exportable (d : Dataset) (part : list nat) : bool :=
  forallb (fun i => bool_decide (i < length (vmap d))
                    && bool_decide (i < length (labels d))) part.


End Vocabulary.

Section SoftVocabulary.
Context {FL : Floats}.

(** The softened unit vector of class [k] among [K] classes: [1 - m] on the
    class, [m] on its only neighbour when the class is the first or the
    last, [m / 2] on each of its two neighbours otherwise, and zero
    elsewhere. *)
Definition soft_target (m : F64) (K k : nat) : list F64 :=
  let hot := <[k := one_minus m]> (replicate K (f64_of_Z 0)) in
  if decide (k = 0) then <[1 := m]> hot
  else if decide (k = K - 1) then <[K - 2 := m]> hot
  else <[k + 1 := half m]> (<[k - 1 := half m]> hot).

(** The unit vector of class [k] among [K] classes, as a row of the label
    matrix. *)
Definition unit_row (K k : nat) : list Z := <[k := 1%Z]> (replicate K 0%Z).

End SoftVocabulary.

Section PickLabelVocabulary.
Context {N : Numerics} {P : Partitioning}.

(** The attributes no [pick_label] assigns: the data columns, the class
    columns and the three cursors are in [d'] as in [d]. *)
Definition keeps_columns (d d' : Dataset) : Prop :=
  codes d' = codes d /\ labels d' = labels d /\ vmap d' = vmap d /\
  label_name d' = label_name d /\ clabels d' = clabels d /\
  gsv_lat d' = gsv_lat d /\ gsv_lng d' = gsv_lng d /\
  psat_size d' = psat_size d /\ sat_raster_name d' = sat_raster_name d /\
  label_types d' = label_types d /\ label_counts d' = label_counts d /\
  num_labels d' = num_labels d /\ batch_inds d' = batch_inds d /\
  batch_ind d' = batch_ind d /\ batch_ind_valid d' = batch_ind_valid d /\
  batch_ind_test d' = batch_ind_test d /\ label_test d' = label_test d.

End PickLabelVocabulary.

(** * Properties *)

(** ** Index selection, slices and sorting *)

Section Lists.
Context {A : Type}.
Implicit Types (arr : list A) (idx : list nat).

Lemma take_rows_Forall2 arr idx r :
  take_rows arr idx = Ok r <-> Forall2 (fun i x => arr !! i = Some x) idx r.
Proof.
  revert r. induction idx as [|i idx IH]; intros r; simpl.
  - split; [intros [= <-]; constructor | by inversion 1].
  - destruct (arr !! i) as [a|] eqn:Ha.
    + destruct (take_rows arr idx) as [r'|e] eqn:Hr; simpl.
      * split.
        -- intros [= <-]. constructor; [done | by apply IH].
        -- inversion 1 as [|? x ? r'' Hx Hrest]; subst.
           apply IH in Hrest. by simplify_eq.
      * split; [done|].
        inversion 1 as [|? x ? r'' Hx Hrest]; subst.
        apply IH in Hrest. done.
    + split; [done|]. inversion 1; simplify_eq.
Qed.

Lemma take_rows_ok arr idx :
  Forall (fun i => i < length arr) idx ->
  exists r, take_rows arr idx = Ok r.
Proof.
  induction 1 as [|i idx Hi _ [r Hr]]; simpl; [by eexists|].
  destruct (lookup_lt_is_Some_2 arr i Hi) as [a ->].
  rewrite Hr. by eexists.
Qed.

Lemma take_rows_length arr idx r :
  take_rows arr idx = Ok r -> length r = length idx.
Proof. intros H%take_rows_Forall2. symmetry. by eapply Forall2_length. Qed.

Lemma take_rows_app arr idx1 idx2 r1 r2 :
  take_rows arr idx1 = Ok r1 -> take_rows arr idx2 = Ok r2 ->
  take_rows arr (idx1 ++ idx2) = Ok (r1 ++ r2).
Proof.
  rewrite !take_rows_Forall2. apply Forall2_app.
Qed.

Lemma slice_length arr a b :
  length (slice arr a b) = b `min` (length arr - a).
Proof. unfold slice. by rewrite length_take, length_drop. Qed.

End Lists.

Lemma sorted_Permutation rows : Permutation (sorted rows) rows.
Proof. apply merge_sort_Permutation. Qed.

Lemma sorted_Sorted rows : Sorted le (sorted rows).
Proof. apply (Sorted_merge_sort le). Qed.

Lemma sorted_length rows : length (sorted rows) = length rows.
Proof. apply Permutation_length, sorted_Permutation. Qed.

Lemma sorted_Forall (Q : nat -> Prop) rows : Forall Q rows -> Forall Q (sorted rows).
Proof. intros H. by rewrite sorted_Permutation. Qed.


(** ** The ceiling quotient and the consecutive slices of a partition *)

Lemma ceil_div_bounds n b :
  0 < b -> 0 < n ->
  0 < ceil_div n b /\ (ceil_div n b - 1) * b < n /\ n <= ceil_div n b * b.
Proof.
  intros Hb Hn. unfold ceil_div.
  pose proof (Nat.div_mod_eq n b) as Hdm.
  pose proof (Nat.mod_upper_bound n b ltac:(lia)) as Hm.
  destruct (decide (n mod b = 0)) as [H0|H0].
  - assert (0 < n / b) by (destruct (n / b); lia). nia.
  - nia.
Qed.

Lemma ceil_div_0 b : 0 < b -> ceil_div 0 b = 0.
Proof.
  intros Hb. unfold ceil_div.
  rewrite Nat.Div0.mod_0_l, Nat.Div0.div_0_l. by rewrite decide_True.
Qed.

Lemma slices_S part b k :
  slices part b (S k) = slices part b k ++ [slice part (k * b) b].
Proof. unfold slices. by rewrite seq_S, map_app. Qed.

Lemma slices_length part b k : length (slices part b k) = k.
Proof. unfold slices. by rewrite length_map, length_seq. Qed.

Lemma slices_lookup part b k n :
  n < k -> slices part b k !! n = Some (slice part (n * b) b).
Proof.
  intros Hn. unfold slices. rewrite list_lookup_fmap, lookup_seq_lt by done.
  done.
Qed.

Lemma concat_slices part b k :
  concat (slices part b k) = take (k * b) part.
Proof.
  induction k as [|k IH]; [done|].
  rewrite slices_S, concat_app, IH; simpl. rewrite app_nil_r.
  unfold slice. rewrite take_take_drop. f_equal. lia.
Qed.

(** The [ceil(|part| / b)] slices cover the partition exactly once, in
    order. *)
Lemma concat_slices_all part b :
  0 < b -> concat (slices part b (ceil_div (length part) b)) = part.
Proof.
  intros Hb. rewrite concat_slices.
  destruct part as [|x part]; [by rewrite take_nil|].
  apply take_ge.
  pose proof (ceil_div_bounds (length (x :: part)) b Hb ltac:(simpl; lia)).
  lia.
Qed.

(** Every slice but the last is full; the last holds between one and [b]
    indices. *)
Lemma slices_full (part : list nat) b n :
  0 < b -> S n < ceil_div (length part) b ->
  length (slice part (n * b) b) = b.
Proof.
  intros Hb Hn. rewrite slice_length.
  assert (0 < length part) as Hlen.
  { destruct part; simpl; [|lia]. rewrite ceil_div_0 in Hn; simpl in *; lia. }
  pose proof (ceil_div_bounds (length part) b Hb Hlen). nia.
Qed.

Lemma slices_last (part : list nat) b n :
  0 < b -> S n = ceil_div (length part) b ->
  0 < length (slice part (n * b) b) <= b.
Proof.
  intros Hb Hn. rewrite slice_length.
  assert (0 < length part) as Hlen.
  { destruct part; simpl; [|lia]. rewrite ceil_div_0 in Hn; simpl in *; lia. }
  pose proof (ceil_div_bounds (length part) b Hb Hlen). nia.
Qed.

(** ** [get_data_part] *)

Section DataPart.
Context {N : Numerics} {P : Partitioning}.
Implicit Types (d : Dataset) (s : state) (b : batch).

Lemma codes_view_Forall2 d srows k v :
  codes_view d srows k = Ok v <->
  Forall2 (fun i x => sample_view d k i = Some x) srows v.
Proof.
  unfold codes_view, sample_view.
  revert v. induction srows as [|i srows IH]; intros v; simpl.
  - split; [intros [= <-]; constructor | by inversion 1].
  - split.
    + intros H.
      destruct (codes d !! i) as [r|] eqn:Hr; [|done].
      destruct (take_rows (codes d) srows) as [mat|] eqn:Hmat; [|done].
      simpl in H, IH.
      destruct (r !! k) as [x|] eqn:Hx; [|done].
      destruct (take_view mat k) as [t|] eqn:Ht; [|done].
      injection H as <-. constructor.
      * rewrite Hr; simpl. by rewrite Hx.
      * by apply IH.
    + inversion 1 as [|? x ? t Hx Hrest]; subst.
      apply IH in Hrest.
      destruct (codes d !! i) as [r|]; [|done].
      destruct (take_rows (codes d) srows) as [mat|]; [|done].
      simpl in *. destruct (r !! k); [|done].
      injection Hx as <-. by rewrite Hrest.
Qed.

Lemma codes_view_ok d srows k :
  Forall (fun i => is_Some (sample_view d k i)) srows ->
  exists v, codes_view d srows k = Ok v.
Proof.
  intros H.
  assert (exists v, Forall2 (fun i x => sample_view d k i = Some x) srows v)
    as [v Hv].
  { induction H as [|i srows [x Hx] _ [v Hv]]; [by exists []|].
    exists (x :: v). by constructor. }
  exists v. by apply codes_view_Forall2.
Qed.

Lemma data_part_holds d srows b :
  data_part d srows = Ok b <-> holds_samples d srows b.
Proof.
  unfold data_part. split.
  - intros H.
    destruct (codes_view d srows 0) as [v1|] eqn:H1; [simpl in H|done].
    destruct (codes_view d srows 1) as [v2|] eqn:H2; [simpl in H|done].
    destruct (codes_view d srows 2) as [v3|] eqn:H3; [simpl in H|done].
    destruct (codes_view d srows 3) as [v4|] eqn:H4; [simpl in H|done].
    destruct (take_rows (labels d) srows) as [lpart|] eqn:Hl; [simpl in H|done].
    destruct (take_rows (gsv_lat d) srows) as [lats|] eqn:Hlat; [simpl in H|done].
    destruct (take_rows (gsv_lng d) srows) as [lngs|] eqn:Hlng; [simpl in H|done].
    injection H as <-.
    apply codes_view_Forall2 in H1, H2, H3, H4.
    apply take_rows_Forall2 in Hl, Hlat, Hlng.
    split; simpl; try done.
    + apply Forall2_fmap_r. eapply Forall2_impl; [exact Hl|].
      intros i x ->. done.
    + by exists lats, lngs.
  - intros [H1 H2 H3 H4 Hl (lats & lngs & Hlat & Hlng & Himg)].
    apply codes_view_Forall2 in H1, H2, H3, H4.
    rewrite H1, H2, H3, H4; simpl.
    assert (exists lpart, Forall2 (fun i x => labels d !! i = Some x) srows lpart
                          /\ l_onehot b = map (one_hot_row d) lpart)
      as (lpart & Hlp & Hlb).
    { clear -Hl. induction Hl as [|i row srows rows Hi _ (lp & Hlp & Heq)].
      - by exists [].
      - destruct (labels d !! i) as [lab|] eqn:Hlab; [|done].
        injection Hi as <-. exists (lab :: lp). split; [by constructor|].
        simpl. by rewrite Heq. }
    apply take_rows_Forall2 in Hlp, Hlat, Hlng.
    rewrite Hlp, Hlat, Hlng; simpl.
    destruct b; simpl in *. by subst.
Qed.

Lemma data_part_ok d srows :
  Forall (readable d) srows -> exists b, data_part d srows = Ok b.
Proof.
  intros H. unfold data_part.
  assert (forall k, k < 4 -> exists v, codes_view d srows k = Ok v) as Hv.
  { intros k Hk. apply codes_view_ok.
    eapply Forall_impl; [exact H|]. intros i (Hi & _). by apply Hi. }
  destruct (Hv 0 ltac:(lia)) as [v1 ->], (Hv 1 ltac:(lia)) as [v2 ->],
    (Hv 2 ltac:(lia)) as [v3 ->], (Hv 3 ltac:(lia)) as [v4 ->]; simpl.
  destruct (take_rows_ok (labels d) srows) as [lpart ->].
  { eapply Forall_impl; [exact H|]. by intros i (_ & ? & _). }
  destruct (take_rows_ok (gsv_lat d) srows) as [lats ->].
  { eapply Forall_impl; [exact H|]. by intros i (_ & _ & ? & _). }
  destruct (take_rows_ok (gsv_lng d) srows) as [lngs ->].
  { eapply Forall_impl; [exact H|]. by intros i (_ & _ & _ & ?). }
  simpl. by eexists.
Qed.

(** Without noise [get_data_part] is [data_part] on the sorted indices and
    leaves the state alone. *)
Lemma get_data_part_None rows s :
  get_data_part rows None s =
  match data_part (self s) (sorted rows) with
  | Ok b => Ok (b, s)
  | Raise e => Raise e
  end.
Proof.
  unfold get_data_part, data_part, bind, get_self, lift, ret.
  destruct (codes_view (self s) (sorted rows) 0); simpl; [|done].
  destruct (codes_view (self s) (sorted rows) 1); simpl; [|done].
  destruct (codes_view (self s) (sorted rows) 2); simpl; [|done].
  destruct (codes_view (self s) (sorted rows) 3); simpl; [|done].
  destruct (take_rows (labels (self s)) (sorted rows)); simpl; [|done].
  destruct (take_rows (gsv_lat (self s)) (sorted rows)); simpl; [|done].
  destruct (take_rows (gsv_lng (self s)) (sorted rows)); simpl; done.
Qed.

End DataPart.

Section Readable.
Context {N : Numerics} {P : Partitioning}.

Lemma readableb_readable (d : Dataset) rows :
  forallb (readableb d) rows = true -> Forall (readable d) rows.
Proof.
  rewrite forallb_forall. intros H. apply Forall_forall. intros i Hi.
  apply list_elem_of_In, H in Hi. unfold readableb in Hi.
  rewrite !andb_true_iff, forallb_forall in Hi.
  destruct Hi as [[[Hv H1] H2] H3].
  apply bool_decide_eq_true in H1, H2, H3.
  repeat split; try done.
  intros k Hk. eapply bool_decide_eq_true, Hv.
  destruct k as [|[|[|[|k]]]]; simpl; auto; lia.
Qed.

End Readable.

(** ** Sequential getters *)

Section Drain.
Context {N : Numerics} {P : Partitioning}.

Lemma drain_app {A} (steps1 steps2 : list (M A)) s :
  drain (steps1 ++ steps2) s =
  match drain steps1 s with
  | Ok (r1, s1) =>
      match drain steps2 s1 with
      | Ok (r2, s2) => Ok (r1 ++ r2, s2)
      | Raise e => Raise e
      end
  | Raise e => Raise e
  end.
Proof.
  revert s. induction steps1 as [|m steps1 IH]; intros s; simpl.
  - unfold ret. by destruct (drain steps2 s) as [[??]|].
  - unfold bind, ret. destruct (m s) as [[a s1]|]; [|done].
    rewrite IH.
    destruct (drain steps1 s1) as [[r1 s2]|]; [|done].
    by destruct (drain steps2 s2) as [[r2 s3]|].
Qed.

Lemma drain_one {A} (m : M A) s :
  drain [m] s =
  match m s with Ok (a, s1) => Ok ([a], s1) | Raise e => Raise e end.
Proof. simpl. unfold bind, ret. by destruct (m s) as [[??]|]. Qed.

End Drain.

(** The three sequential getters have one shape: a partition, its cursor and
    the assignment to that cursor. *)
Section Cursor.
Context {N : Numerics} {P : Partitioning}.
Variable part : Dataset -> list nat.
Variable cur : Dataset -> nat.
Variable set_cur : nat -> Dataset -> Dataset.
Variable getter : nat -> M batch.

Hypothesis getter_eq : forall batch_size s,
  getter batch_size s =
  match data_part (self s)
          (sorted (slice (part (self s)) (cur (self s)) batch_size)) with
  | Ok b =>
      Ok (b, with_self
               (set_cur (next_cursor (length (part (self s))) (cur (self s))
                           batch_size) (self s)) s)
  | Raise e => Raise e
  end.
Hypothesis cur_set : forall n d, cur (set_cur n d) = n.
Hypothesis part_set : forall n d, part (set_cur n d) = part d.
Hypothesis set_set : forall n m d, set_cur n (set_cur m d) = set_cur n d.
Hypothesis set_id : forall d, set_cur (cur d) d = d.
Hypothesis data_part_set : forall n d rows,
  data_part (set_cur n d) rows = data_part d rows.

Lemma with_self_self s : with_self (self s) s = s.
Proof. by destruct s. Qed.

(** As long as the cursor stays short of the end, [k] calls serve the first
    [k] slices and leave the cursor at [k * batch_size]. *)
Lemma getter_prefix batch_size s k :
  cur (self s) = 0 ->
  Forall (readable (self s)) (part (self s)) ->
  k * batch_size < length (part (self s)) ->
  exists batches,
    drain (replicate k (getter batch_size)) s =
      Ok (batches, with_self (set_cur (k * batch_size) (self s)) s) /\
    Forall2 (fun rows b => holds_samples (self s) (sorted rows) b)
      (slices (part (self s)) batch_size k) batches.
Proof.
  intros Hcur Hread. induction k as [|k IH]; intros Hk.
  - exists []. split; [|constructor].
    simpl. unfold ret. rewrite <- Hcur, set_id. by rewrite with_self_self.
  - destruct IH as (batches & Hrun & Hrows); [lia|].
    destruct (data_part_ok (self s)
                (sorted (slice (part (self s)) (k * batch_size) batch_size)))
      as [b Hb].
    { apply sorted_Forall. unfold slice.
      apply Forall_take, Forall_drop, Hread. }
    exists (batches ++ [b]). split.
    + rewrite replicate_S_end, drain_app, Hrun, drain_one, getter_eq.
      simpl. rewrite cur_set, part_set, data_part_set, Hb, set_set.
      unfold next_cursor. rewrite decide_False by (simpl in Hk; lia).
      unfold with_self; simpl. do 4 f_equal. simpl. lia.
    + rewrite slices_S. apply Forall2_app; [done|].
      constructor; [|constructor]. by apply data_part_holds.
Qed.

(** A whole pass from cursor 0: [ceil(|part| / batch_size)] calls serve the
    partition once and the state is back where it started. *)
Lemma getter_pass batch_size s :
  0 < batch_size ->
  part (self s) <> [] ->
  cur (self s) = 0 ->
  Forall (readable (self s)) (part (self s)) ->
  exists batches,
    drain (replicate (ceil_div (length (part (self s))) batch_size)
             (getter batch_size)) s = Ok (batches, s) /\
    one_pass (self s) (part (self s)) batch_size batches.
Proof.
  intros Hb Hne Hcur Hread.
  assert (0 < length (part (self s))) as Hlen.
  { destruct (part (self s)); simpl; [done|lia]. }
  destruct (ceil_div_bounds _ _ Hb Hlen) as (Hpos & Hlo & Hhi).
  destruct (ceil_div (length (part (self s))) batch_size) as [|k] eqn:Hn;
    [lia|].
  replace (S k - 1) with k in Hlo by lia.
  destruct (getter_prefix batch_size s k Hcur Hread Hlo)
    as (batches & Hrun & Hrows).
  destruct (data_part_ok (self s)
              (sorted (slice (part (self s)) (k * batch_size) batch_size)))
    as [b Hdp].
  { apply sorted_Forall. unfold slice.
    apply Forall_take, Forall_drop, Hread. }
  assert (Forall2 (fun rows b => holds_samples (self s) (sorted rows) b)
            (slices (part (self s)) batch_size (S k)) (batches ++ [b]))
    as Hall.
  { rewrite slices_S. apply Forall2_app; [done|].
    constructor; [|constructor]. by apply data_part_holds. }
  exists (batches ++ [b]). split.
  - rewrite replicate_S_end, drain_app, Hrun, drain_one, getter_eq.
    simpl. rewrite cur_set, part_set, data_part_set, Hdp, set_set.
    unfold next_cursor. rewrite decide_True by lia.
    unfold with_self; simpl.
    replace (set_cur 0 (self s)) with (self s)
      by (rewrite <- Hcur; by rewrite set_id).
    by destruct s.
  - split.
    + rewrite Hn. apply Forall2_length in Hall.
      rewrite slices_length in Hall. done.
    + by rewrite Hn.
    + by apply concat_slices_all.
    + intros n Hlt. by apply slices_full.
    + intros n Heq. by apply slices_last.
Qed.

(** The cursor after one call, on a non-empty partition, is a position of
    the partition. *)
Lemma getter_cursor batch_size s b s' :
  getter batch_size s = Ok (b, s') ->
  s' = with_self (set_cur (cur (self s')) (self s)) s /\
  (part (self s) <> [] -> cur (self s') < length (part (self s))).
Proof.
  rewrite getter_eq.
  destruct (data_part _ _) as [b'|]; [|done].
  intros [= <- <-]. simpl. rewrite cur_set. split; [done|].
  intros Hne. unfold next_cursor.
  destruct (part (self s)); [done|]. simpl in *.
  case_decide; lia.
Qed.

End Cursor.

Section Sequential.
Context {N : Numerics} {P : Partitioning}.
Implicit Types (d : Dataset) (s : state) (b : batch).

Ltac getter_eq_tac :=
  intros;
  unfold get_train_batch, get_validation_batch, get_test_batch,
    bind, get_self, assign, set_self, ret, next_cursor, with_self;
  rewrite get_data_part_None;
  destruct (data_part _ _); [|done]; simpl;
  repeat case_decide; simpl; try done; lia.

Lemma get_train_batch_eq batch_size s :
  get_train_batch batch_size s =
  match data_part (self s)
          (sorted (slice (train_part (self s)) (batch_ind (self s)) batch_size)) with
  | Ok b =>
      Ok (b, with_self
               (with_batch_ind
                  (next_cursor (length (train_part (self s)))
                     (batch_ind (self s)) batch_size) (self s)) s)
  | Raise e => Raise e
  end.
Proof. getter_eq_tac. Qed.

Lemma get_validation_batch_eq batch_size s :
  get_validation_batch batch_size s =
  match data_part (self s)
          (sorted (slice (validation_part (self s)) (batch_ind_valid (self s))
                     batch_size)) with
  | Ok b =>
      Ok (b, with_self
               (with_batch_ind_valid
                  (next_cursor (length (validation_part (self s)))
                     (batch_ind_valid (self s)) batch_size) (self s)) s)
  | Raise e => Raise e
  end.
Proof. getter_eq_tac. Qed.

Lemma get_test_batch_eq batch_size s :
  get_test_batch batch_size s =
  match data_part (self s)
          (sorted (slice (test_part (self s)) (batch_ind_test (self s))
                     batch_size)) with
  | Ok b =>
      Ok (b, with_self
               (with_batch_ind_test
                  (next_cursor (length (test_part (self s)))
                     (batch_ind_test (self s)) batch_size) (self s)) s)
  | Raise e => Raise e
  end.
Proof. getter_eq_tac. Qed.

(** A sequential getter returns whenever the samples of its partition are
    readable. *)
Lemma get_train_batch_returns batch_size s :
  Forall (readable (self s)) (train_part (self s)) ->
  exists b s', returns (get_train_batch batch_size) s b s' /\
    holds_samples (self s)
      (sorted (slice (train_part (self s)) (batch_ind (self s)) batch_size)) b.
Proof.
  intros Hread. unfold returns. rewrite get_train_batch_eq.
  edestruct data_part_ok as [b Hb]; [|rewrite Hb].
  { apply sorted_Forall, Forall_take, Forall_drop, Hread. }
  eexists _, _. split; [done|]. by apply data_part_holds.
Qed.

Lemma get_validation_batch_returns batch_size s :
  Forall (readable (self s)) (validation_part (self s)) ->
  exists b s', returns (get_validation_batch batch_size) s b s' /\
    holds_samples (self s)
      (sorted (slice (validation_part (self s)) (batch_ind_valid (self s))
                 batch_size)) b.
Proof.
  intros Hread. unfold returns. rewrite get_validation_batch_eq.
  edestruct data_part_ok as [b Hb]; [|rewrite Hb].
  { apply sorted_Forall, Forall_take, Forall_drop, Hread. }
  eexists _, _. split; [done|]. by apply data_part_holds.
Qed.

Lemma get_test_batch_returns batch_size s :
  Forall (readable (self s)) (test_part (self s)) ->
  exists b s', returns (get_test_batch batch_size) s b s' /\
    holds_samples (self s)
      (sorted (slice (test_part (self s)) (batch_ind_test (self s))
                 batch_size)) b.
Proof.
  intros Hread. unfold returns. rewrite get_test_batch_eq.
  edestruct data_part_ok as [b Hb]; [|rewrite Hb].
  { apply sorted_Forall, Forall_take, Forall_drop, Hread. }
  eexists _, _. split; [done|]. by apply data_part_holds.
Qed.

(** C1.  From cursor 0 on a non-empty partition, [ceil(|part| / batch_size)]
    consecutive calls of [get_train_batch] return the samples of the train
    partition once each (batch [n] holds the slice [n] of the partition,
    only the last batch may be short), the cursor is back at 0 (the state
    is the starting state) and the next call serves the first slice again;
    the same for [get_test_batch] and the test partition. *)
Theorem batch_cursor_wrap s batch_size :
  0 < batch_size ->
  (train_part (self s) <> [] ->
   batch_ind (self s) = 0 ->
   forallb (readableb (self s)) (train_part (self s)) = true ->
   serves_epoch get_train_batch (train_part (self s)) s batch_size) /\
  (test_part (self s) <> [] ->
   batch_ind_test (self s) = 0 ->
   forallb (readableb (self s)) (test_part (self s)) = true ->
   serves_epoch get_test_batch (test_part (self s)) s batch_size).
Proof.
  intros Hb. split.
  - intros Hne Hcur Hread%readableb_readable.
    destruct (getter_pass train_part batch_ind with_batch_ind get_train_batch
                get_train_batch_eq) with (batch_size := batch_size) (s := s)
      as (batches & Hrun & Hpass); try done.
    { by intros []. }
    exists batches. split; [done|]. split; [done|].
    destruct (get_train_batch_returns batch_size s Hread) as (b & s1 & H1 & H2).
    exists b, s1. split; [done|]. by rewrite Hcur in H2.
  - intros Hne Hcur Hread%readableb_readable.
    destruct (getter_pass test_part batch_ind_test with_batch_ind_test
                get_test_batch get_test_batch_eq)
      with (batch_size := batch_size) (s := s)
      as (batches & Hrun & Hpass); try done.
    { by intros []. }
    exists batches. split; [done|]. split; [done|].
    destruct (get_test_batch_returns batch_size s Hread) as (b & s1 & H1 & H2).
    exists b, s1. split; [done|]. by rewrite Hcur in H2.
Qed.

(** C9.  The constructor leaves the three cursors at 0; a call of
    [get_train_batch], [get_validation_batch] or [get_test_batch] returns
    whenever the samples of its partition are readable, changes nothing but
    its own cursor and, on a non-empty partition, leaves that cursor a
    position of the partition. *)
Theorem cursor_invariant :
  (forall features raw_labels meta name sat_image size constraint lat lng,
      let d := __init__ features raw_labels meta name sat_image size
                 constraint lat lng in
      batch_ind d = 0 /\ batch_ind_valid d = 0 /\ batch_ind_test d = 0) /\
  (forall s batch_size,
      (forallb (readableb (self s)) (train_part (self s)) = true ->
       exists b s', returns (get_train_batch batch_size) s b s') /\
      (forall b s',
          returns (get_train_batch batch_size) s b s' ->
          s' = with_self (with_batch_ind (batch_ind (self s')) (self s)) s /\
          (train_part (self s) <> [] ->
           0 <= batch_ind (self s') < length (train_part (self s'))))) /\
  (forall s batch_size,
      (forallb (readableb (self s)) (validation_part (self s)) = true ->
       exists b s', returns (get_validation_batch batch_size) s b s') /\
      (forall b s',
          returns (get_validation_batch batch_size) s b s' ->
          s' = with_self
                 (with_batch_ind_valid (batch_ind_valid (self s')) (self s)) s /\
          (validation_part (self s) <> [] ->
           0 <= batch_ind_valid (self s') < length (validation_part (self s'))))) /\
  (forall s batch_size,
      (forallb (readableb (self s)) (test_part (self s)) = true ->
       exists b s', returns (get_test_batch batch_size) s b s') /\
      (forall b s',
          returns (get_test_batch batch_size) s b s' ->
          s' = with_self
                 (with_batch_ind_test (batch_ind_test (self s')) (self s)) s /\
          (test_part (self s) <> [] ->
           0 <= batch_ind_test (self s') < length (test_part (self s'))))).
Proof.
  split; [done|]. repeat split.
  - intros Hread%readableb_readable.
    destruct (get_train_batch_returns batch_size s Hread) as (b & s' & ? & _).
    by exists b, s'.
  - eapply (getter_cursor train_part batch_ind with_batch_ind get_train_batch
              get_train_batch_eq); done.
  - lia.
  - pose proof (getter_cursor train_part batch_ind with_batch_ind
                  get_train_batch get_train_batch_eq (fun n d => eq_refl)
                  batch_size s b s' H) as [Heq Hlt].
    rewrite Heq at 2. simpl. by apply Hlt.
  - intros Hread%readableb_readable.
    destruct (get_validation_batch_returns batch_size s Hread)
      as (b & s' & ? & _).
    by exists b, s'.
  - eapply (getter_cursor validation_part batch_ind_valid with_batch_ind_valid
              get_validation_batch get_validation_batch_eq); done.
  - lia.
  - pose proof (getter_cursor validation_part batch_ind_valid
                  with_batch_ind_valid get_validation_batch
                  get_validation_batch_eq (fun n d => eq_refl)
                  batch_size s b s' H) as [Heq Hlt].
    rewrite Heq at 2. simpl. by apply Hlt.
  - intros Hread%readableb_readable.
    destruct (get_test_batch_returns batch_size s Hread) as (b & s' & ? & _).
    by exists b, s'.
  - eapply (getter_cursor test_part batch_ind_test with_batch_ind_test
              get_test_batch get_test_batch_eq); done.
  - lia.
  - pose proof (getter_cursor test_part batch_ind_test with_batch_ind_test
                  get_test_batch get_test_batch_eq (fun n d => eq_refl)
                  batch_size s b s' H) as [Heq Hlt].
    rewrite Heq at 2. simpl. by apply Hlt.
Qed.

End Sequential.

(** ** Balanced getters *)

Section Balanced.
Context {N : Numerics} {P : Partitioning}.
Implicit Types (d : Dataset) (s : state) (b : batch).

(** One round of the loop of the balanced getters. *)
Lemma balanced_rows_cons d part k lab types acc s :
  balanced_rows d part k (lab :: types) acc s =
  match take_rows (labels d) part with
  | Ok part_labels =>
      let pg := np_random_permutation (np_random s)
                  (np_where_eq part_labels lab 0) in
      match take_rows part (take k pg.1) with
      | Ok picked =>
          balanced_rows d part k types (acc ++ picked)
            (mkState (self s) pg.2 (files s))
      | Raise e => Raise e
      end
  | Raise e => Raise e
  end.
Proof.
  simpl. unfold bind, lift, with_rng.
  destruct (take_rows (labels d) part) as [part_labels|]; [|done].
  destruct (np_random_permutation _ _) as [perm g]; simpl.
  by destruct (take_rows part (take k perm)).
Qed.

Lemma balanced_rows_frame d part k types acc s rows s' :
  balanced_rows d part k types acc s = Ok (rows, s') ->
  self s' = self s /\ files s' = files s.
Proof.
  revert acc s. induction types as [|lab types IH]; intros acc s.
  - simpl. unfold ret. by intros [= _ <-].
  - rewrite balanced_rows_cons.
    destruct (take_rows (labels d) part) as [part_labels|]; [|done].
    simpl. destruct (take_rows part _) as [picked|]; [|done].
    intros H%IH. done.
Qed.

Lemma get_balanced_train_batch_eq batch_size s :
  get_balanced_train_batch batch_size s =
  if decide (length (label_types (self s)) = 0) then Raise ZeroDivisionError
  else
    match balanced_rows (self s) (train_part (self s))
            (batch_size / length (label_types (self s)))
            (label_types (self s)) [] s with
    | Ok (rows, s') => get_data_part rows None s'
    | Raise e => Raise e
    end.
Proof.
  unfold get_balanced_train_batch, bind, get_self, lift, ret.
  by case_decide.
Qed.

Lemma get_balanced_validation_batch_eq batch_size s :
  get_balanced_validation_batch batch_size s =
  if decide (length (label_types (self s)) = 0) then Raise ZeroDivisionError
  else
    match balanced_rows (self s) (validation_part (self s))
            (batch_size / length (label_types (self s)))
            (label_types (self s)) [] s with
    | Ok (rows, s') => get_data_part rows None s'
    | Raise e => Raise e
    end.
Proof.
  unfold get_balanced_validation_batch, bind, get_self, lift, ret.
  by case_decide.
Qed.

(** C10.  A balanced getter that returns leaves the object as it was: the
    three cursors, the three partitions and every other attribute; so do
    the files.  Only numpy's random state moves. *)
Theorem balanced_batch_frame s batch_size b s' :
  (returns (get_balanced_train_batch batch_size) s b s' ->
   self s' = self s /\ files s' = files s) /\
  (returns (get_balanced_validation_batch batch_size) s b s' ->
   self s' = self s /\ files s' = files s).
Proof.
  unfold returns. split.
  - rewrite get_balanced_train_batch_eq. case_decide; [done|].
    destruct (balanced_rows _ _ _ _ _ _) as [[rows s1]|] eqn:Hrows; [|done].
    apply balanced_rows_frame in Hrows. rewrite get_data_part_None.
    destruct (data_part _ _); [|done]. by intros [= _ <-].
  - rewrite get_balanced_validation_batch_eq. case_decide; [done|].
    destruct (balanced_rows _ _ _ _ _ _) as [[rows s1]|] eqn:Hrows; [|done].
    apply balanced_rows_frame in Hrows. rewrite get_data_part_None.
    destruct (data_part _ _); [|done]. by intros [= _ <-].
Qed.

Lemma elem_of_np_where_eq arr lab pos j :
  j ∈ np_where_eq arr lab pos <-> pos <= j /\ arr !! (j - pos) = Some lab.
Proof.
  revert pos. induction arr as [|x arr IH]; intros pos; simpl.
  - rewrite elem_of_nil. split; [done|]. by intros [_ ?].
  - case_decide as Hx; rewrite ?elem_of_cons, IH.
    + split.
      * intros [->|[Hle Hj]].
        -- split; [lia|]. rewrite Nat.sub_diag. simpl. by subst.
        -- split; [lia|]. by replace (j - pos) with (S (j - S pos)) by lia.
      * intros [Hle Hj]. destruct (decide (j = pos)) as [->|]; [by left|right].
        split; [lia|]. by replace (j - pos) with (S (j - S pos)) in Hj by lia.
    + split.
      * intros [Hle Hj]. split; [lia|].
        by replace (j - pos) with (S (j - S pos)) by lia.
      * intros [Hle Hj]. destruct (decide (j = pos)) as [->|].
        { rewrite Nat.sub_diag in Hj. simpl in Hj. congruence. }
        split; [lia|]. by replace (j - pos) with (S (j - S pos)) in Hj by lia.
Qed.

Lemma np_where_eq_length arr lab pos :
  length (np_where_eq arr lab pos) = length (filter (fun x => x = lab) arr).
Proof.
  revert pos. induction arr as [|x arr IH]; intros pos; simpl; [done|].
  rewrite filter_cons. case_decide; simpl; by rewrite IH.
Qed.

Lemma class_count_labels d c part part_labels :
  Forall2 (fun i x => labels d !! i = Some x) part part_labels ->
  length (filter (fun x => x = c) part_labels) = class_count d c part.
Proof.
  unfold class_count.
  induction 1 as [|i x part part_labels Hi _ IH]; [done|].
  rewrite !filter_cons, Hi.
  destruct (decide (x = c)) as [->|Hne].
  - rewrite decide_True by done. simpl. by rewrite IH.
  - rewrite decide_False by congruence. done.
Qed.

Lemma class_count_app d c rows1 rows2 :
  class_count d c (rows1 ++ rows2) = class_count d c rows1 + class_count d c rows2.
Proof. unfold class_count. by rewrite filter_app, length_app. Qed.

Lemma class_count_Permutation d c rows1 rows2 :
  Permutation rows1 rows2 -> class_count d c rows1 = class_count d c rows2.
Proof. unfold class_count. by intros ->. Qed.

(** Rows that all belong to class [lab]. *)
Lemma class_count_same d c lab rows :
  Forall (fun i => labels d !! i = Some lab) rows ->
  class_count d c rows = if decide (c = lab) then length rows else 0.
Proof.
  unfold class_count. induction 1 as [|i rows Hi _ IH]; simpl.
  - by case_decide.
  - rewrite filter_cons, Hi. case_decide as Hc.
    + subst. rewrite decide_True by done. simpl. by rewrite IH.
    + rewrite decide_False by congruence. done.
Qed.

(** The loop of the balanced getters: when every class of [types] has at
    least [k] members in [part], it returns and appends [k] members of each
    class. *)
Lemma balanced_rows_spec d part k types acc s :
  Forall (fun i => i < length (labels d)) part ->
  NoDup types ->
  (forall c, c ∈ types -> k <= class_count d c part) ->
  exists new s',
    balanced_rows d part k types acc s = Ok (acc ++ new, s') /\
    Forall (fun i => i ∈ part /\ exists c, c ∈ types /\ labels d !! i = Some c) new /\
    (forall c, class_count d c new = if decide (c ∈ types) then k else 0) /\
    length new = k * length types.
Proof.
  intros Hrange. revert acc s.
  induction types as [|lab types IH]; intros acc s Hnd Hcount.
  - exists [], s. rewrite app_nil_r. split; [done|]. split; [constructor|].
    split; [|simpl; lia].
    intros c. rewrite decide_False by apply not_elem_of_nil. done.
  - apply NoDup_cons in Hnd as [Hnotin Hnd].
    rewrite balanced_rows_cons.
    destruct (take_rows_ok (labels d) part Hrange) as [part_labels Hpl].
    rewrite Hpl. apply take_rows_Forall2 in Hpl. simpl.
    pose proof (np_random_permutation_perm (np_random s)
                  (np_where_eq part_labels lab 0)) as Hperm.
    set (perm := (np_random_permutation (np_random s)
                    (np_where_eq part_labels lab 0)).1) in *.
    assert (Forall (fun j => exists i, part !! j = Some i /\
                                       labels d !! i = Some lab) (take k perm))
      as Hsel.
    { apply Forall_take. rewrite <- Hperm. apply Forall_forall. intros j Hj.
      apply elem_of_np_where_eq in Hj as [_ Hj]. rewrite Nat.sub_0_r in Hj.
      destruct (Forall2_lookup_r _ _ _ _ _ Hpl Hj) as (i & Hi & Hlab).
      by exists i. }
    destruct (take_rows_ok part (take k perm)) as [picked Hpicked].
    { eapply Forall_impl; [exact Hsel|]. intros j (i & Hi & _).
      by eapply lookup_lt_Some. }
    rewrite Hpicked.
    assert (length picked = k) as Hlen.
    { rewrite (take_rows_length _ _ _ Hpicked), length_take.
      rewrite <- Hperm, np_where_eq_length, (class_count_labels d lab part) by done.
      pose proof (Hcount lab ltac:(left)). lia. }
    apply take_rows_Forall2 in Hpicked.
    assert (Forall (fun i => i ∈ part /\ labels d !! i = Some lab) picked)
      as Hpk.
    { apply Forall_forall. intros i Hi.
      apply list_elem_of_lookup in Hi as [n Hn].
      destruct (Forall2_lookup_r _ _ _ _ _ Hpicked Hn) as (j & Hj & Hji).
      apply list_elem_of_lookup_2 in Hj.
      rewrite Forall_forall in Hsel. destruct (Hsel j Hj) as (i' & Hi' & Hlab).
      simplify_eq. split; [|done]. by eapply list_elem_of_lookup_2. }
    destruct (IH (acc ++ picked)
                (mkState (self s)
                   (np_random_permutation (np_random s)
                      (np_where_eq part_labels lab 0)).2 (files s)) Hnd)
      as (new & s' & Hrun & Hnew & Hcnt & Hnewlen).
    { intros c Hc. apply Hcount. by right. }
    exists (picked ++ new), s'. split; [by rewrite Hrun, app_assoc|].
    split; [|split; [|rewrite length_app; simpl; lia]].
    + apply Forall_app. split.
      * eapply Forall_impl; [exact Hpk|]. intros i [? ?]. split; [done|].
        exists lab. split; [left|done].
      * eapply Forall_impl; [exact Hnew|]. intros i (? & c & ? & ?).
        split; [done|]. exists c. split; [by right|done].
    + intros c. rewrite class_count_app, Hcnt.
      rewrite (class_count_same d c lab picked)
        by (eapply Forall_impl; [exact Hpk|]; by intros i [? ?]).
      rewrite Hlen.
      destruct (decide (c = lab)) as [->|Hne].
      * rewrite decide_False by done. rewrite decide_True by left. lia.
      * destruct (decide (c ∈ types)).
        -- rewrite decide_True by (by right). done.
        -- rewrite decide_False; [done|]. rewrite elem_of_cons. by intros [?|?].
Qed.

(** Distinct classes of [label_types] have distinct rows in the label
    matrix. *)
Lemma one_hot_row_inj d x c :
  num_labels d = length (label_types d) ->
  x ∈ label_types d ->
  one_hot_row d x = one_hot_row d c -> x = c.
Proof.
  intros Hnum Hx Heq.
  apply list_elem_of_lookup in Hx as [kx Hkx].
  assert (kx < num_labels d) as Hlt
    by (rewrite Hnum; by eapply lookup_lt_Some).
  assert (forall y, one_hot_row d y !! kx =
                    Some (if decide (y = x) then 1%Z else 0%Z)) as Hcol.
  { intros y. unfold one_hot_row.
    rewrite list_lookup_fmap. rewrite lookup_seq_lt by done.
    simpl. by rewrite Hkx. }
  pose proof (Hcol x) as H1. pose proof (Hcol c) as H2.
  rewrite Heq, H2 in H1.
  destruct (decide (c = x)) as [->|_]; [done|].
  by rewrite decide_True in H1.
Qed.

Lemma filter_length_Forall2 {A B} (R : A -> B -> Prop)
    (F : A -> Prop) (G : B -> Prop)
    `{!forall x, Decision (F x)} `{!forall y, Decision (G y)} l1 l2 :
  Forall2 (fun x y => R x y /\ (F x <-> G y)) l1 l2 ->
  length (filter F l1) = length (filter G l2).
Proof.
  induction 1 as [|x y l1 l2 [_ Hxy] _ IH]; [done|].
  rewrite !filter_cons.
  destruct (decide (F x)) as [HF|HF].
  - rewrite decide_True by (by apply Hxy). simpl. by rewrite IH.
  - rewrite decide_False by (by rewrite <- Hxy). done.
Qed.

(** C5.  When every class of [label_types] has at least
    [batch_size // num_classes] samples in the train partition,
    [get_balanced_train_batch] returns a batch of exactly that many samples
    of each class, all of them members of the train partition.  (With the
    classes 0, 1, 2 and [batch_size = 9] that is 3 of each.) *)
Theorem balanced_batch_counts s batch_size :
  let d := self s in
  let k := batch_size / length (label_types d) in
  label_types d <> [] ->
  constructed d ->
  forallb (readableb d) (train_part d) = true ->
  forallb (fun c => k <=? class_count d c (train_part d)) (label_types d) = true ->
  exists b s' rows,
    returns (get_balanced_train_batch batch_size) s b s' /\
    holds_samples d (sorted rows) b /\
    Forall (fun i => i ∈ train_part d) rows /\
    length (l_onehot b) = k * length (label_types d) /\
    forall c, c ∈ label_types d ->
      class_count d c rows = k /\
      length (filter (fun row => row = one_hot_row d c) (l_onehot b)) = k.
Proof.
  intros d k Hne [Htypes Hnum] Hread%readableb_readable Hcount.
  assert (NoDup (label_types d)) as Hnd.
  { rewrite Htypes. unfold np_unique.
    rewrite merge_sort_Permutation. apply NoDup_remove_dups. }
  rewrite forallb_forall in Hcount.
  destruct (balanced_rows_spec d (train_part d) k (label_types d) [] s)
    as (rows & s1 & Hrun & Hrows & Hcnt & Hlen); [|done|..].
  { eapply Forall_impl; [exact Hread|]. by intros i (_ & ? & _). }
  { intros c Hc. apply Nat.leb_le, Hcount, list_elem_of_In, Hc. }
  simpl in Hrun.
  destruct (balanced_rows_frame _ _ _ _ _ _ _ _ Hrun) as [Hself _].
  destruct (data_part_ok d (sorted rows)) as [b Hb].
  { apply sorted_Forall. apply Forall_forall. intros i Hi.
    rewrite Forall_forall in Hrows, Hread. apply Hread. by apply Hrows. }
  assert (forall c, c ∈ label_types d ->
            class_count d c rows = k /\
            length (filter (fun row => row = one_hot_row d c) (l_onehot b)) = k)
    as Hclasses.
  { intros c Hc.
    assert (class_count d c rows = k) as Hk
      by (rewrite Hcnt; by rewrite decide_True).
    split; [done|].
    rewrite <- Hk, <- (class_count_Permutation d c _ _ (sorted_Permutation rows)).
    unfold class_count. symmetry.
    apply data_part_holds in Hb as [_ _ _ _ Hl _].
    eapply (filter_length_Forall2
              (fun i row => one_hot_row d <$> labels d !! i = Some row)).
    apply Forall2_same_length_lookup. split; [by eapply Forall2_length|].
    intros n i row Hi Hrow.
    pose proof (Forall2_lookup_lr _ _ _ _ _ _ Hl Hi Hrow) as Hirow.
    simpl in Hirow. split; [done|].
    apply list_elem_of_lookup_2 in Hi. rewrite sorted_Permutation in Hi.
    rewrite Forall_forall in Hrows.
    destruct (Hrows i Hi) as (_ & x & Hx & Hlab).
    rewrite Hlab in Hirow. injection Hirow as <-. rewrite Hlab. split.
    - by intros [= ->].
    - intros Hoh. f_equal. by eapply one_hot_row_inj. }
  exists b, s1, rows. split; [|split; [|split; [|split]]]; try done.
  - unfold returns. rewrite get_balanced_train_batch_eq.
    rewrite decide_False by (intros Hz; by apply Hne, nil_length_inv).
    fold d k. rewrite Hrun, get_data_part_None, Hself. fold d.
    by rewrite Hb.
  - by apply data_part_holds.
  - eapply Forall_impl; [exact Hrows|]. by intros i [? _].
  - apply data_part_holds in Hb as [_ _ _ _ Hl _].
    apply Forall2_length in Hl. by rewrite <- Hl, sorted_length.
Qed.

End Balanced.

(** ** Order of the returned rows, and batching before [pick_label] *)

Section Fetch.
Context {N : Numerics} {P : Partitioning}.
Implicit Types (d : Dataset) (s : state) (b : batch).


Lemma sorted_nil : sorted [] = [].
Proof. reflexivity. Qed.

(** On an empty partition the loop of the balanced getters picks nothing. *)
Lemma balanced_rows_nil d k types acc s :
  exists s', balanced_rows d [] k types acc s = Ok (acc, s') /\
             self s' = self s /\ files s' = files s.
Proof.
  revert acc s. induction types as [|lab types IH]; intros acc s.
  - by exists s.
  - rewrite balanced_rows_cons. simpl.
    pose proof (np_random_permutation_perm (np_random s) []) as Hperm.
    apply Permutation_nil_l in Hperm. rewrite <- Hperm, take_nil. simpl.
    rewrite app_nil_r.
    destruct (IH acc (mkState (self s)
                        (np_random_permutation (np_random s) []).2 (files s)))
      as (s' & Hrun & Hself & Hfiles).
    by exists s'.
Qed.

(** C7 (amended).  Before [pick_label] the partitions are the empty place
    holders of the constructor and no getter checks for that: each
    sequential getter returns the batch of no samples and leaves the state,
    cursor included, as it was; so do the balanced getters, up to numpy's
    random state, when the label column is not empty. *)
Theorem batch_before_pick_label
    features raw_labels meta name sat_image size constraint lat lng
    (g : RNG) (fs : gmap string file) (batch_size : nat) :
  let d := __init__ features raw_labels meta name sat_image size
             constraint lat lng in
  let s := mkState d g fs in
  returns (get_train_batch batch_size) s (empty_batch d) s /\
  returns (get_validation_batch batch_size) s (empty_batch d) s /\
  returns (get_test_batch batch_size) s (empty_batch d) s /\
  (label_types d <> [] ->
   exists g1 g2,
     returns (get_balanced_train_batch batch_size) s (empty_batch d)
       (mkState d g1 fs) /\
     returns (get_balanced_validation_batch batch_size) s (empty_batch d)
       (mkState d g2 fs)).
Proof.
  intros d s. unfold returns.
  rewrite get_train_batch_eq, get_validation_batch_eq, get_test_batch_eq.
  simpl.
  assert (slice (@nil nat) 0 batch_size = []) as ->
    by (unfold slice; simpl; apply take_nil).
  rewrite sorted_nil. unfold next_cursor. rewrite decide_True by lia.
  repeat split; try done.
  intros Hne.
  rewrite get_balanced_train_batch_eq, get_balanced_validation_batch_eq.
  rewrite !decide_False by (intros Hz; by apply Hne, nil_length_inv).
  destruct (balanced_rows_nil d
              (batch_size / length (label_types d)) (label_types d) [] s)
    as ([d' g' fs'] & Hrun & Hself & Hfiles).
  simpl in Hself, Hfiles. subst d' fs'.
  exists g', g'. change (train_part (self s)) with (@nil nat).
  change (validation_part (self s)) with (@nil nat).
  change (self s) with d. rewrite Hrun, get_data_part_None.
  by rewrite sorted_nil.
Qed.

End Fetch.

(** ** Iterators *)

Section Iterators.
Context {N : Numerics} {P : Partitioning}.
Implicit Types (d : Dataset) (s : state) (b : batch).

(** Steps that return without touching the state can be drained in it. *)
Lemma drain_pure {A B} (step : B -> M A) (ns : list B) (rs : list A) s :
  Forall2 (fun n r => step n s = Ok (r, s)) ns rs ->
  drain (map step ns) s = Ok (rs, s).
Proof.
  induction 1 as [|n r ns rs Hn _ IH]; simpl; [done|].
  unfold bind, ret. by rewrite Hn, IH.
Qed.

Lemma Forall2_total {A B} (R : A -> B -> Prop) (l : list A) :
  Forall (fun x => exists y, R x y) l -> exists k, Forall2 R l k.
Proof.
  induction 1 as [|x l [y Hy] _ [k Hk]]; [by exists []|].
  exists (y :: k). by constructor.
Qed.

Lemma has_meta_lt d rows :
  has_meta d rows = true -> Forall (fun i => i < length (vmap d)) rows.
Proof.
  unfold has_meta. rewrite forallb_forall. intros H.
  apply Forall_forall. intros i Hi%list_elem_of_In%H.
  by apply bool_decide_eq_true in Hi.
Qed.

(** C6.  For [batch_num >= 1], [test_iterator(batch_num)] has
    [ceil(|test_part| / batch_num)] steps; drained, they make one pass over
    the test partition (the slices concatenate to it, only the last may be
    short), each batch coming with the metadata rows of its samples.  The
    results are the same whatever the three cursors hold, and the state,
    cursors included, is untouched, so the next iterator starts over.
    [validation_iterator] does the same over the validation partition. *)
Theorem iterator_full_pass s batch_num :
  0 < batch_num ->
  (forallb (readableb (self s)) (test_part (self s)) = true ->
   has_meta (self s) (test_part (self s)) = true ->
   exists results,
     one_pass (self s) (test_part (self s)) batch_num results.*1 /\
     Forall2 (fun rows r => take_rows (vmap (self s)) (sorted rows) = Ok r.2)
       (slices (test_part (self s)) batch_num
          (ceil_div (length (test_part (self s))) batch_num)) results /\
     forall c cv ct,
       let sc := with_cursors c cv ct s in
       exists steps,
         returns (test_iterator batch_num) sc steps sc /\
         length steps = ceil_div (length (test_part (self s))) batch_num /\
         returns (drain steps) sc results sc) /\
  (forallb (readableb (self s)) (validation_part (self s)) = true ->
   exists results,
     one_pass (self s) (validation_part (self s)) batch_num results /\
     forall c cv ct,
       let sc := with_cursors c cv ct s in
       exists steps,
         returns (validation_iterator batch_num) sc steps sc /\
         length steps = ceil_div (length (validation_part (self s))) batch_num /\
         returns (drain steps) sc results sc).
Proof.
  intros Hb. split.
  - intros Hread%readableb_readable Hmeta%has_meta_lt.
    set (part := test_part (self s)) in *.
    set (n := ceil_div (length part) batch_num).
    destruct (Forall2_total
                (fun rows (r : batch * list meta_row) =>
                   data_part (self s) (sorted rows) = Ok r.1 /\
                   take_rows (vmap (self s)) (sorted rows) = Ok r.2)
                (slices part batch_num n)) as [results Hres].
    { apply Forall_forall. intros rows Hrows.
      apply list_elem_of_fmap in Hrows as (k & -> & _).
      destruct (data_part_ok (self s)
                  (sorted (slice part (k * batch_num) batch_num))) as [b Hdp].
      { apply sorted_Forall, Forall_take, Forall_drop, Hread. }
      destruct (take_rows_ok (vmap (self s))
                  (sorted (slice part (k * batch_num) batch_num))) as [m Hm].
      { apply sorted_Forall, Forall_take, Forall_drop, Hmeta. }
      by exists (b, m). }
    exists results. split; [|split].
    + split.
      * rewrite length_fmap. apply Forall2_length in Hres.
        by rewrite slices_length in Hres.
      * apply Forall2_fmap_r. eapply Forall2_impl; [exact Hres|].
        intros rows r [Hdp _]. by apply data_part_holds.
      * by apply concat_slices_all.
      * intros k Hk. by apply slices_full.
      * intros k Hk. by apply slices_last.
    + eapply Forall2_impl; [exact Hres|]. by intros rows r [_ ?].
    + intros c cv ct sc. eexists. split; [|split].
      * unfold returns, test_iterator, bind, get_self, lift, ret.
        rewrite decide_False by lia. reflexivity.
      * by rewrite length_map, length_seq.
      * unfold returns. apply drain_pure. unfold slices in Hres.
        apply Forall2_fmap_l in Hres.
        eapply Forall2_impl; [exact Hres|].
        intros k [b m] [Hdp Hm]. simpl in *.
        unfold bind, get_self, lift, ret.
        rewrite get_data_part_None. simpl. fold part.
        change (data_part _ ?r) with (data_part (self s) r).
        rewrite Hdp. change (vmap (self sc)) with (vmap (self s)).
        by rewrite Hm.
  - intros Hread%readableb_readable.
    set (part := validation_part (self s)) in *.
    set (n := ceil_div (length part) batch_num).
    destruct (Forall2_total
                (fun rows b => data_part (self s) (sorted rows) = Ok b)
                (slices part batch_num n)) as [results Hres].
    { apply Forall_forall. intros rows Hrows.
      apply list_elem_of_fmap in Hrows as (k & -> & _).
      apply data_part_ok.
      apply sorted_Forall, Forall_take, Forall_drop, Hread. }
    exists results. split.
    + split.
      * apply Forall2_length in Hres. by rewrite slices_length in Hres.
      * eapply Forall2_impl; [exact Hres|].
        intros rows r Hdp. by apply data_part_holds.
      * by apply concat_slices_all.
      * intros k Hk. by apply slices_full.
      * intros k Hk. by apply slices_last.
    + intros c cv ct sc. eexists. split; [|split].
      * unfold returns, validation_iterator, bind, get_self, lift, ret.
        rewrite decide_False by lia. reflexivity.
      * by rewrite length_map, length_seq.
      * unfold returns. apply drain_pure. unfold slices in Hres.
        apply Forall2_fmap_l in Hres.
        eapply Forall2_impl; [exact Hres|].
        intros k b Hdp. simpl in *.
        unfold bind, get_self, lift, ret.
        rewrite get_data_part_None. simpl. fold part.
        change (data_part _ ?r) with (data_part (self s) r).
        by rewrite Hdp.
Qed.

End Iterators.

(** ** Prediction export *)

Section Predictions.
Context {N : Numerics} {P : Partitioning}.
Implicit Types (d : Dataset) (s : state).

Lemma write_preds_of_returns (part : Dataset -> list nat) s preds fname :
  length preds = length (part (self s)) ->
  exportable (self s) (part (self s)) = true ->
  exists rows,
    returns (write_preds_of part preds fname) s tt
      (mkState (self s) (np_random s)
         (<[fname := Csv (export_columns (self s)) rows]> (files s))) /\
    export_rows (self s) (sorted (part (self s))) preds rows.
Proof.
  intros Hlen Hexp.
  assert (Forall (fun i => i < length (vmap (self s)) /\
                           i < length (labels (self s)))
            (sorted (part (self s)))) as Hin.
  { apply sorted_Forall. unfold exportable in Hexp.
    rewrite forallb_forall in Hexp. apply Forall_forall.
    intros i Hi%list_elem_of_In%Hexp.
    apply andb_true_iff in Hi as [H1 H2].
    by apply bool_decide_eq_true in H1, H2. }
  destruct (take_rows_ok (vmap (self s)) (sorted (part (self s)))) as [meta Hmeta].
  { eapply Forall_impl; [exact Hin|]. by intros i [? _]. }
  destruct (take_rows_ok (labels (self s)) (sorted (part (self s)))) as [labs Hlabs].
  { eapply Forall_impl; [exact Hin|]. by intros i [_ ?]. }
  pose proof (take_rows_length _ _ _ Hmeta) as Hml.
  pose proof (take_rows_length _ _ _ Hlabs) as Hll.
  rewrite sorted_length in Hml, Hll.
  eexists. split.
  - unfold returns, write_preds_of, bind, get_self, lift, ret, write_file.
    rewrite Hmeta, Hlabs. simpl.
    rewrite decide_True; [reflexivity|].
    rewrite length_zip_with. lia.
  - split.
    + rewrite !length_zip_with, sorted_length. lia.
    + intros j i Hj.
      apply take_rows_Forall2 in Hmeta, Hlabs.
      destruct (Forall2_lookup_l _ _ _ _ _ Hmeta Hj) as (m & Hm & Hvm).
      destruct (Forall2_lookup_l _ _ _ _ _ Hlabs Hj) as (lab & Hlab & Hvl).
      destruct (lookup_lt_is_Some_2 preds j) as [p Hp].
      { apply lookup_lt_Some in Hj. rewrite sorted_length in Hj. lia. }
      exists m, lab, p. repeat split; try done.
      rewrite !lookup_zip_with, Hm, Hlab, Hp. done.
Qed.

(** C8.  Given one prediction per test sample, [write_preds] writes a table
    with the columns [img_id], [pcd], [oa11], [lsoa11], the label name and
    [predicted], one row per member of the test partition in ascending
    sample index, row [j] holding the metadata and label of the [j]-th
    smallest index and [preds[j]]. *)
Theorem write_preds_table s preds fname :
  length preds = length (test_part (self s)) ->
  exportable (self s) (test_part (self s)) = true ->
  exists rows,
    returns (write_preds preds fname) s tt
      (mkState (self s) (np_random s)
         (<[fname := Csv (export_columns (self s)) rows]> (files s))) /\
    length rows = length (test_part (self s)) /\
    Sorted le (sorted (test_part (self s))) /\
    Permutation (sorted (test_part (self s))) (test_part (self s)) /\
    export_rows (self s) (sorted (test_part (self s))) preds rows.
Proof.
  intros Hlen Hexp.
  destruct (write_preds_of_returns test_part s preds fname Hlen Hexp)
    as (rows & Hrun & Hrows).
  exists rows. split; [done|]. split.
  { destruct Hrows as [-> _]. apply sorted_length. }
  split; [apply sorted_Sorted|]. split; [apply sorted_Permutation|done].
Qed.

(** With no rows to pair them with, predictions cannot be appended: on an
    empty partition the export writes an empty table for no predictions and
    raises otherwise. *)
Lemma write_preds_of_nil (part : Dataset -> list nat) s preds fname :
  part (self s) = [] ->
  write_preds_of part preds fname s =
  match preds with
  | [] => Ok (tt, mkState (self s) (np_random s)
                    (<[fname := Csv (export_columns (self s)) []]> (files s)))
  | _ :: _ => Raise ValueError
  end.
Proof.
  intros Hnil.
  unfold write_preds_of, bind, get_self, lift, ret, write_file.
  rewrite Hnil, sorted_nil. simpl. by destruct preds.
Qed.

End Predictions.

(** ** Replay of persisted partitions *)

Section Replay.
Context {N : Numerics} {P : Partitioning}.
Implicit Types (d : Dataset) (s : state).








(** What the later run draws when a training subset is requested: the
    train partition is the subset [decimate_partition_stratified] selects
    from the loaded partition under the random state of that run. *)
Lemma pick_train_part_subset _train_part psize s :
  Qle_bool 1 psize = false ->
  pick_train_part _train_part psize s =
  match decimate_partition_stratified _train_part (labels (self s)) psize None
          (np_random s) with
  | Ok (dec, g) =>
      Ok (tt, mkState (with_train_part (decimated_part dec) (self s)) g (files s))
  | Raise e => Raise e
  end.
Proof.
  intros Hp. unfold pick_train_part.
  destruct (Qlt_le_dec psize 1) as [_|Hle].
  - unfold bind, get_self, with_rng_result, assign, set_self.
    by destruct (decimate_partition_stratified _ _ _ _ _) as [[dec g]|].
  - apply Qle_bool_iff in Hle. congruence.
Qed.

End Replay.

(** ** The statements on the sample data *)

Section Checks.
Import Scenario.
Local Existing Instances numerics partitioning.

(** Five train samples, two test samples, batches of two. *)
Lemma batch_cursor_wrap_witness :
  let s := partitioned [4; 0; 3; 1; 9] [] [5; 2] 0 in
  serves_epoch get_train_batch [4; 0; 3; 1; 9] s 2 /\
  serves_epoch get_test_batch [5; 2] s 2.
Proof.
  intros s.
  destruct (batch_cursor_wrap s 2 ltac:(lia)) as [Htrain Htest].
  split; [apply Htrain | apply Htest]; done.
Defined.

Lemma cursor_invariant_witness :
  let s := partitioned [4; 0; 3; 1; 9] [7] [5; 2] 0 in
  (exists b s', returns (get_train_batch 3) s b s' /\
                0 <= batch_ind (self s') < length (train_part (self s'))) /\
  (exists b s', returns (get_validation_batch 3) s b s' /\
                0 <= batch_ind_valid (self s') < length (validation_part (self s'))) /\
  (exists b s', returns (get_test_batch 3) s b s' /\
                0 <= batch_ind_test (self s') < length (test_part (self s'))).
Proof.
  intros s.
  destruct cursor_invariant as (_ & Htrain & Hvalid & Htest).
  split; [|split].
  - destruct (Htrain s 3) as [Hret Hinv].
    destruct Hret as (b & s' & Hrun); [reflexivity|].
    exists b, s'. split; [done|]. by apply (Hinv b s' Hrun).
  - destruct (Hvalid s 3) as [Hret Hinv].
    destruct Hret as (b & s' & Hrun); [reflexivity|].
    exists b, s'. split; [done|]. by apply (Hinv b s' Hrun).
  - destruct (Htest s 3) as [Hret Hinv].
    destruct Hret as (b & s' & Hrun); [reflexivity|].
    exists b, s'. split; [done|]. by apply (Hinv b s' Hrun).
Defined.

Lemma balanced_batch_frame_witness :
  let s := partitioned [4; 0; 3; 1; 9; 8; 10; 5; 2] [6; 7; 11] [] 1 in
  (exists b s', returns (get_balanced_train_batch 9) s b s' /\
                self s' = self s /\ files s' = files s) /\
  (exists b s', returns (get_balanced_validation_batch 9) s b s' /\
                self s' = self s /\ files s' = files s).
Proof.
  intros s. split.
  - assert (exists b s', returns (get_balanced_train_batch 9) s b s')
      as (b & s' & Hrun) by (eexists _, _; vm_compute; reflexivity).
    exists b, s'. split; [done|].
    by apply (proj1 (balanced_batch_frame s 9 b s')).
  - assert (exists b s', returns (get_balanced_validation_batch 9) s b s')
      as (b & s' & Hrun) by (eexists _, _; vm_compute; reflexivity).
    exists b, s'. split; [done|].
    by apply (proj2 (balanced_batch_frame s 9 b s')).
Defined.

(** The classes 0, 1, 2 and [batch_size = 9]: three samples of each. *)
Lemma balanced_batch_counts_witness :
  let s := partitioned [4; 0; 3; 1; 9; 8; 10; 5; 2; 6] [7; 11] [] 1 in
  exists b s',
    returns (get_balanced_train_batch 9) s b s' /\
    length (l_onehot b) = 9 /\
    forall c, c ∈ [0; 1; 2]%Z ->
      length (filter (fun row => row = one_hot_row (self s) c) (l_onehot b)) = 3.
Proof.
  intros s.
  destruct (balanced_batch_counts s 9)
    as (b & s' & rows & Hrun & _ & _ & Hlen & Hclass).
  - done.
  - by split.
  - reflexivity.
  - reflexivity.
  - exists b, s'. split; [done|]. split; [done|].
    intros c Hc. by apply Hclass.
Defined.

Lemma iterator_full_pass_witness :
  let s := partitioned [4; 0; 3] [7; 6; 1] [5; 2; 11; 8; 10] 0 in
  (exists results steps,
      one_pass (self s) [5; 2; 11; 8; 10] 2 results.*1 /\
      returns (test_iterator 2) s steps s /\
      length steps = 3 /\
      returns (drain steps) s results s) /\
  (exists results steps,
      one_pass (self s) [7; 6; 1] 2 results /\
      returns (validation_iterator 2) s steps s /\
      length steps = 2 /\
      returns (drain steps) s results s).
Proof.
  intros s.
  destruct (iterator_full_pass s 2 ltac:(lia)) as [Htest Hvalid].
  split.
  - destruct Htest as (results & Hpass & _ & Hrun); [reflexivity..|].
    destruct (Hrun 0 0 0) as (steps & H1 & H2 & H3).
    by exists results, steps.
  - destruct Hvalid as (results & Hpass & Hrun); [reflexivity|].
    destruct (Hrun 0 0 0) as (steps & H1 & H2 & H3).
    by exists results, steps.
Defined.

Lemma write_preds_table_witness :
  let s := partitioned [4; 0; 3] [] [5; 2] 0 in
  exists rows s',
    returns (write_preds [CInt 7; CInt 1] "preds.csv") s tt s' /\
    files s' !! "preds.csv"%string = Some (Csv (export_columns (self s)) rows) /\
    export_rows (self s) [2; 5] [CInt 7; CInt 1] rows.
Proof.
  intros s.
  destruct (write_preds_table s [CInt 7; CInt 1] "preds.csv")
    as (rows & Hrun & _ & _ & _ & Hrows); [reflexivity..|].
  eexists rows, _. split; [exact Hrun|]. split; [|exact Hrows].
  simpl. apply lookup_insert_eq.
Defined.



Lemma batch_before_pick_label_witness :
  returns (get_train_batch 4) (created 3) (empty_batch fresh) (created 3) /\
  exists g1,
    returns (get_balanced_train_batch 4) (created 3) (empty_batch fresh)
      (mkState fresh g1 ∅).
Proof.
  destruct (batch_before_pick_label (P := partitioning) sample_codes
              [1; 1; 1; 1; 2; 2; 2; 2; 3; 3; 3; 3]%Z sample_meta
              "decile" "raster.tif" 8 None
              (map (fun i => 50 + i)%Z sample_ids) sample_ids 3 ∅ 4)
    as (Htrain & _ & _ & Hbalanced).
  split; [exact Htrain|].
  destruct Hbalanced as (g1 & g2 & H1 & _); [done|].
  by exists g1.
Defined.

(** C7 as stated fails: a getter called right after construction returns. *)
Lemma batch_before_pick_label_counterexample :
  returns (get_train_batch 3) (created 0) (empty_batch fresh) (created 0) /\
  ~ exists e, get_train_batch 3 (created 0) = Raise e.
Proof.
  split; [vm_compute; reflexivity|]. intros [e He]. vm_compute in He. discriminate.
Qed.



(** C4.  The classes without a validation partition route the validation
    batches to the train partition, but their [write_preds_validation]
    reads [validation_part], which they never assign: after [pick_label]
    it is still empty, so with one prediction per train sample the export
    raises, and with no prediction it writes a table of no rows. *)
Theorem validation_export_not_routed :
  (exists s,
      returns (Dataset_TT.pick_label 1 "parts" (1 # 2) 1 None) (created 0) tt s /\
      train_part (self s) = [0; 1; 5; 6; 10; 11] /\
      validation_part (self s) = [] /\
      (forall batch_size,
          Dataset_TT.get_validation_batch batch_size s =
          get_train_batch batch_size s /\
          Dataset_TT.get_balanced_validation_batch batch_size s =
          get_balanced_train_batch batch_size s) /\
      Dataset_TT.write_preds_validation
        [CInt 0; CInt 0; CInt 1; CInt 1; CInt 2; CInt 2] "valid.csv" s =
        Raise ValueError /\
      exists s',
        returns (Dataset_TT.write_preds_validation [] "valid.csv") s tt s' /\
        files s' !! "valid.csv"%string = Some (Csv (export_columns fresh) [])) /\
  (exists s,
      returns (Dataset_TT_byclass.pick_label 1 "parts" (1 # 2) 1 None)
        (mkState (with_label_test (Some 2%Z) fresh) 0 ∅) tt s /\
      train_part (self s) = [0; 1; 2; 3; 4; 5; 6; 7] /\
      validation_part (self s) = [] /\
      (forall batch_size,
          Dataset_TT_byclass.get_validation_batch batch_size s =
          get_train_batch batch_size s /\
          Dataset_TT_byclass.get_balanced_validation_batch batch_size s =
          get_balanced_train_batch batch_size s) /\
      Dataset_TT_byclass.write_preds_validation
        [CInt 0; CInt 0; CInt 0; CInt 0; CInt 1; CInt 1; CInt 1; CInt 1]
        "valid.csv" s = Raise ValueError /\
      exists s',
        returns (Dataset_TT_byclass.write_preds_validation [] "valid.csv") s tt s' /\
        files s' !! "valid.csv"%string = Some (Csv (export_columns fresh) [])).
Proof.
  split.
  - eexists. split; [vm_compute; reflexivity|].
    repeat split; try done.
    eexists. split; [vm_compute; reflexivity|]. done.
  - eexists. split; [vm_compute; reflexivity|].
    repeat split; try done.
    eexists. split; [vm_compute; reflexivity|]. done.
Qed.

End Checks.

(** * Further properties of the module *)

(** ** The label columns the constructor derives *)

Section Constructor.
Context {N : Numerics} {P : Partitioning}.
Implicit Types (d : Dataset) (s : state) (b : batch).

Lemma elem_of_np_unique (labels : list Z) x : x ∈ np_unique labels <-> x ∈ labels.
Proof.
  unfold np_unique. by rewrite merge_sort_Permutation, elem_of_remove_dups.
Qed.

Lemma NoDup_np_unique (labels : list Z) : NoDup (np_unique labels).
Proof.
  unfold np_unique. rewrite merge_sort_Permutation. apply NoDup_remove_dups.
Qed.

Lemma Sorted_np_unique (labels : list Z) : Sorted Z.le (np_unique labels).
Proof. apply (Sorted_merge_sort Z.le). Qed.

(** The class columns are the distinct values of the label column, each one
    less than in the table, in ascending order and without repetition. *)
Theorem init_label_types features raw_labels meta name sat_image size
    constraint lat lng :
  let d := __init__ features raw_labels meta name sat_image size
             constraint lat lng in
  constructed d /\
  length (labels d) = length raw_labels /\
  (forall i x, raw_labels !! i = Some x -> labels d !! i = Some (x - 1)%Z) /\
  Sorted Z.le (label_types d) /\
  NoDup (label_types d) /\
  (forall x, x ∈ label_types d <-> (x + 1)%Z ∈ raw_labels).
Proof.
  intros d. split; [by split|]. split; [apply length_map|].
  split.
  { intros i x Hx. simpl. unfold map_labels.
    change (map ?f ?l) with (f <$> l). by rewrite list_lookup_fmap, Hx. }
  split; [apply Sorted_np_unique|]. split; [apply NoDup_np_unique|].
  intros x. simpl. rewrite elem_of_np_unique. unfold map_labels.
  change (map ?f ?l) with (f <$> l). rewrite list_elem_of_fmap. split.
  - intros (y & -> & Hy). by replace (y - 1 + 1)%Z with y by lia.
  - intros Hx. exists (x + 1)%Z. split; [lia|done].
Qed.

Lemma sum_indicator (vals : list Z) a :
  NoDup vals -> a ∈ vals ->
  sum_list (map (fun v => if decide (a = v) then 1 else 0) vals) = 1.
Proof.
  induction 1 as [|v vals Hv Hnd IH]; [by intros ?%elem_of_nil|].
  intros Ha. simpl. destruct (decide (a = v)) as [->|Hne].
  - assert (sum_list (map (fun v0 => if decide (v = v0) then 1 else 0) vals) = 0)
      as ->; [|done].
    clear IH Ha. induction vals as [|w vals IH]; [done|]. simpl.
    apply not_elem_of_cons in Hv as [Hvw Hv].
    apply NoDup_cons in Hnd as [_ Hnd].
    rewrite decide_False by done. by rewrite IH.
  - apply elem_of_cons in Ha as [?|Ha]; [done|]. by rewrite IH.
Qed.

Lemma sum_occurrences (vals labels : list Z) :
  NoDup vals -> (forall x, x ∈ labels -> x ∈ vals) ->
  sum_list (map (fun v => length (filter (fun x => x = v) labels)) vals)
  = length labels.
Proof.
  intros Hnd. induction labels as [|a labels IH]; intros Hin.
  - simpl. clear. induction vals as [|v vals IHv]; [done|]. simpl.
    by rewrite IHv.
  - assert (forall vs,
      sum_list (map (fun v => length (filter (fun x => x = v) (a :: labels))) vs)
      = sum_list (map (fun v => length (filter (fun x => x = v) labels)) vs)
        + sum_list (map (fun v => if decide (a = v) then 1 else 0) vs)) as Hsplit.
    { induction vs as [|v vs IHv]; [done|]. simpl. rewrite IHv.
      rewrite filter_cons. destruct (decide (a = v)); simpl; lia. }
    rewrite Hsplit, IH, sum_indicator; simpl; try done; try lia.
    + apply Hin. left.
    + intros x Hx. apply Hin. by right.
Qed.

(** The class counts go with the class columns: one count per class, the
    number of samples of that class, never zero, and together the number
    of samples. *)
Theorem init_label_counts features raw_labels meta name sat_image size
    constraint lat lng :
  let d := __init__ features raw_labels meta name sat_image size
             constraint lat lng in
  length (label_counts d) = num_labels d /\
  length (batch_inds d) = num_labels d /\
  Forall2 (fun c n => n = length (filter (fun x => x = c) (labels d)) /\ 0 < n)
    (label_types d) (label_counts d) /\
  sum_list (label_counts d) = length raw_labels.
Proof.
  intros d. simpl. unfold np_unique_counts.
  split; [by rewrite length_map|]. split; [by rewrite length_replicate|].
  split.
  - change (map ?f ?l) with (f <$> l). apply Forall2_fmap_r.
    apply Forall_Forall2_diag, Forall_forall. intros c Hc. split; [done|].
    rewrite elem_of_np_unique in Hc.
    assert (c ∈ filter (fun x => x = c) (map_labels raw_labels)) as Hf
      by (apply list_elem_of_filter; by split).
    destruct (filter _ _); [by apply elem_of_nil in Hf|simpl; lia].
  - rewrite sum_occurrences.
    + apply length_map.
    + apply NoDup_np_unique.
    + intros x. by rewrite elem_of_np_unique.
Qed.

(** The row of the label matrix for a class of [label_types] is the unit
    vector of that class. *)
Lemma one_hot_row_unit d lab k :
  NoDup (label_types d) ->
  num_labels d = length (label_types d) ->
  label_types d !! k = Some lab ->
  one_hot_row d lab = <[k := 1%Z]> (replicate (num_labels d) 0%Z).
Proof.
  intros Hnd Hnum Hk.
  assert (k < num_labels d) as Hlt by (rewrite Hnum; by eapply lookup_lt_Some).
  apply list_eq. intros j. unfold one_hot_row.
  rewrite list_lookup_fmap.
  destruct (decide (j < num_labels d)) as [Hj|Hj].
  - rewrite lookup_seq_lt by done. simpl.
    destruct (decide (k = j)) as [<-|Hne].
    + rewrite Hk, decide_True by done.
      by rewrite list_lookup_insert_eq by (by rewrite length_replicate).
    + rewrite list_lookup_insert_ne, lookup_replicate_2 by done.
      destruct (label_types d !! j) as [lab'|] eqn:Hj'; [|done].
      rewrite decide_False; [done|]. intros ->.
      by apply Hne, (NoDup_lookup (label_types d) k j lab').
  - rewrite lookup_seq_ge by lia. simpl. symmetry.
    apply lookup_ge_None. rewrite length_insert, length_replicate. lia.
Qed.

Lemma label_matrix_units s rows b s' :
  constructed (self s) ->
  returns (get_data_part rows None) s b s' ->
  length (l_onehot b) = length rows /\
  forall j i, sorted rows !! j = Some i ->
    exists lab k,
      labels (self s) !! i = Some lab /\
      label_types (self s) !! k = Some lab /\
      l_onehot b !! j = Some (<[k := 1%Z]> (replicate (num_labels (self s)) 0%Z)).
Proof.
  intros [Htypes Hnum]. unfold returns. rewrite get_data_part_None.
  destruct (data_part (self s) (sorted rows)) as [b'|] eqn:Hb; [|done].
  intros [= -> <-]. apply data_part_holds in Hb as [_ _ _ _ Hl _].
  split.
  { apply Forall2_length in Hl. by rewrite <- Hl, sorted_length. }
  intros j i Hj.
  destruct (Forall2_lookup_l _ _ _ _ _ Hl Hj) as (row & Hrow & Hi).
  destruct (labels (self s) !! i) as [lab|] eqn:Hlab; [|done].
  injection Hi as <-.
  assert (lab ∈ label_types (self s)) as Hin.
  { rewrite Htypes, elem_of_np_unique. by eapply list_elem_of_lookup_2. }
  apply list_elem_of_lookup in Hin as [k Hk].
  exists lab, k. split; [done|]. split; [done|]. rewrite Hrow. f_equal.
  apply one_hot_row_unit; try done.
  rewrite Htypes. apply NoDup_np_unique.
Qed.

(** On an object as the constructor leaves its label columns, every row of
    the label matrix [get_data_part] returns is a unit vector of
    [num_labels] entries: 1 in the column of the sample's class, 0
    elsewhere. *)
Theorem label_matrix_one_hot s rows b s' :
  constructed (self s) ->
  returns (get_data_part rows None) s b s' ->
  length (l_onehot b) = length rows /\
  forall j i, sorted rows !! j = Some i ->
    exists lab k,
      labels (self s) !! i = Some lab /\
      label_types (self s) !! k = Some lab /\
      l_onehot b !! j = Some (<[k := 1%Z]> (replicate (num_labels (self s)) 0%Z)).
Proof. apply label_matrix_units. Qed.

End Constructor.

(** ** [soften_ordinal_labels] *)

Section SoftenProperties.
Context {FL : Floats}.

Lemma argmax_from_bound best best_pos pos row :
  argmax_from best best_pos pos row = best_pos \/
  pos <= argmax_from best best_pos pos row < pos + length row.
Proof.
  revert best best_pos pos. induction row as [|x row IH]; intros; simpl.
  - by left.
  - case_decide.
    + destruct (IH x pos (S pos)) as [->|?]; right; lia.
    + destruct (IH best best_pos (S pos)) as [->|?]; [by left|right; lia].
Qed.

Lemma np_argmax_lt row k : np_argmax row = Ok k -> k < length row.
Proof.
  destruct row as [|x row]; [done|]. simpl. intros [= <-].
  destruct (argmax_from_bound x 0 1 row) as [->|?]; lia.
Qed.

Lemma np_argmax_nil row : np_argmax row = Raise ValueError <-> row = [].
Proof. by destruct row. Qed.

Lemma argmax_from_le best best_pos pos row :
  Forall (fun x => (x <= best)%Z) row ->
  argmax_from best best_pos pos row = best_pos.
Proof.
  revert pos. induction row as [|x row IH]; intros pos Hle; [done|].
  apply Forall_cons in Hle as [Hx Hle]. simpl.
  rewrite decide_False by lia. by apply IH.
Qed.

Lemma argmax_from_unit K k best_pos pos :
  k < K -> argmax_from 0 best_pos pos (unit_row K k) = pos + k.
Proof.
  unfold unit_row. revert k pos.
  induction K as [|K IH]; intros k pos Hk; [lia|].
  destruct k as [|k]; simpl.
  - rewrite argmax_from_le; [lia|].
    apply Forall_replicate. lia.
  - rewrite IH by lia. lia.
Qed.

(** [np.argmax] of a unit vector is the position of its 1. *)
Lemma np_argmax_unit K k : k < K -> np_argmax (unit_row K k) = Ok k.
Proof.
  intros Hk. unfold unit_row. destruct K as [|K]; [lia|].
  destruct k as [|k]; simpl.
  - rewrite argmax_from_le; [done|]. apply Forall_replicate. lia.
  - f_equal. apply (argmax_from_unit K k 0 1). lia.
Qed.

Lemma set_col_ok {A} (row : list A) j v :
  j < length row -> set_col row j v = Ok (<[j := v]> row).
Proof. intros. unfold set_col. by rewrite decide_True. Qed.

Lemma soften_row_wide m row row_ :
  length row_ = length row -> 2 <= length row ->
  exists r, soften_row m row row_ = Ok r /\ length r = length row.
Proof.
  intros Hlen Hwide. unfold soften_row.
  destruct (np_argmax row) as [k|] eqn:Hk.
  2:{ destruct row; [simpl in *; lia|done]. }
  apply np_argmax_lt in Hk. simpl.
  destruct (decide (k = 0)).
  { rewrite set_col_ok by lia. eexists. split; [done|].
    by rewrite length_insert. }
  destruct (decide (k = length row - 1)).
  { unfold set_col_minus2. rewrite decide_True by lia.
    eexists. split; [done|]. by rewrite length_insert. }
  rewrite set_col_ok by lia. simpl.
  rewrite set_col_ok by (rewrite length_insert; lia).
  eexists. split; [done|]. by rewrite !length_insert.
Qed.

Lemma soften_row_narrow m row row_ :
  length row_ = length row -> length row < 2 ->
  soften_row m row row_ =
  Raise (if decide (length row = 0) then ValueError else IndexError).
Proof.
  intros Hlen Hnarrow. unfold soften_row.
  destruct row as [|x [|y row]]; simpl in *; [done| |lia].
  unfold set_col. by rewrite decide_False by lia.
Qed.

Lemma soften_rows_wide m labels labels_ :
  Forall2 (fun row row_ => length row_ = length row) labels labels_ ->
  Forall (fun row => 2 <= length row) labels ->
  exists r, soften_rows m labels labels_ = Ok r /\
            Forall2 (fun row out => length out = length row) labels r.
Proof.
  induction 1 as [|row row_ labels labels_ Hlen _ IH]; intros Hwide.
  - by exists [].
  - apply Forall_cons in Hwide as [Hrow Hwide].
    destruct (soften_row_wide m row row_ Hlen Hrow) as (r & Hr & Hrl).
    destruct (IH Hwide) as (rest & Hrest & Hshape).
    exists (r :: rest). simpl. rewrite Hr, Hrest. split; [done|].
    by constructor.
Qed.

Lemma soften_hot_rows m (labels : list (list Z)) :
  Forall2 (fun row row_ => length row_ = length row) labels
    (map (soften_hot m) labels).
Proof.
  change (map ?f ?l) with (f <$> l). apply Forall2_fmap_r.
  apply Forall_Forall2_diag, Forall_forall. intros row _.
  unfold soften_hot. apply length_map.
Qed.

Lemma soften_rows_returns m (labels : list (list Z)) r :
  soften_rows m labels (map (soften_hot m) labels) = Ok r ->
  Forall (fun row => 2 <= length row) labels.
Proof.
  revert r. induction labels as [|row labels IH]; intros r Hr; [constructor|].
  simpl in Hr.
  destruct (decide (2 <= length row)) as [Hrow|Hrow].
  - constructor; [done|].
    destruct (soften_row m row (soften_hot m row)); [|done]. simpl in Hr.
    destruct (soften_rows m labels (map (soften_hot m) labels)) as [rest|];
      [|done].
    by eapply IH.
  - rewrite soften_row_narrow in Hr; [done| |lia].
    unfold soften_hot. apply length_map.
Qed.

(** [soften_ordinal_labels] returns exactly when every row of the label
    matrix has at least two columns, and then with a matrix of the same
    shape. *)
Theorem soften_ordinal_labels_shape labels m :
  ((exists r, soften_ordinal_labels labels m = Ok r) <->
   Forall (fun row => 2 <= length row) labels) /\
  (forall r, soften_ordinal_labels labels m = Ok r ->
     Forall2 (fun row out => length out = length row) labels r).
Proof.
  unfold soften_ordinal_labels.
  assert (Forall (fun row => 2 <= length row) labels ->
          exists r, soften_rows m labels (map (soften_hot m) labels) = Ok r /\
                    Forall2 (fun row out => length out = length row) labels r)
    as Hwide.
  { apply soften_rows_wide, soften_hot_rows. }
  pose proof (soften_rows_returns m labels) as Hback.
  split; [split|].
  - intros [r Hr].
    destruct (soften_rows m labels (map (soften_hot m) labels)) as [r'|] eqn:Hr';
      [|done].
    by eapply Hback.
  - intros (r & -> & _)%Hwide. by eexists.
  - intros r Hr.
    destruct (soften_rows m labels (map (soften_hot m) labels)) as [r'|] eqn:Hr';
      [|done].
    injection Hr as <-.
    destruct (Hwide (Hback r' eq_refl)) as (r'' & [= <-] & Hshape).
    apply Forall2_fmap_r. eapply Forall2_impl; [exact Hshape|].
    intros row out <-. apply length_map.
Qed.

(** The first row with fewer than two columns decides the error: one
    column raises [IndexError] (the neighbour column 1 does not exist), no
    column raises [ValueError] ([np.argmax] of an empty vector). *)
Theorem soften_ordinal_labels_narrow good bad rest m :
  Forall (fun row => 2 <= length row) good ->
  length bad < 2 ->
  soften_ordinal_labels (good ++ bad :: rest) m =
  Raise (if decide (length bad = 0) then ValueError else IndexError).
Proof.
  intros Hgood Hbad. unfold soften_ordinal_labels.
  assert (soften_rows m (good ++ bad :: rest)
            (map (soften_hot m) (good ++ bad :: rest)) =
          Raise (if decide (length bad = 0) then ValueError else IndexError))
    as ->; [|done].
  induction Hgood as [|row good Hrow _ IH]; simpl.
  - rewrite soften_row_narrow; [done| |done].
    unfold soften_hot. apply length_map.
  - destruct (soften_row_wide m row (soften_hot m row)) as (r & -> & _);
      [unfold soften_hot; apply length_map|done|].
    simpl. by rewrite IH.
Qed.

Lemma soften_hot_unit m K k :
  soften_hot m (unit_row K k) = <[k := one_minus m]> (replicate K (f64_of_Z 0)).
Proof.
  unfold soften_hot, unit_row. change (map ?f ?l) with (f <$> l).
  by rewrite list_fmap_insert, fmap_replicate.
Qed.

Lemma soften_row_unit m K k :
  k < K -> 2 <= K ->
  soften_row m (unit_row K k) (soften_hot m (unit_row K k)) =
  Ok (soft_target m K k).
Proof.
  intros Hk HK. unfold soften_row, soft_target.
  rewrite np_argmax_unit, soften_hot_unit by done. simpl.
  assert (length (unit_row K k) = K) as ->
    by (unfold unit_row; by rewrite length_insert, length_replicate).
  destruct (decide (k = 0)).
  { apply set_col_ok. rewrite length_insert, length_replicate. lia. }
  destruct (decide (k = K - 1)).
  { unfold set_col_minus2. rewrite length_insert, length_replicate.
    by rewrite decide_True. }
  rewrite set_col_ok by (rewrite length_insert, length_replicate; lia).
  simpl. apply set_col_ok. rewrite !length_insert, length_replicate. lia.
Qed.

Lemma soften_unit_matrix m K ks :
  2 <= K -> Forall (fun k => k < K) ks ->
  soften_ordinal_labels (map (unit_row K) ks) m =
  Ok (map (fun k => map astype_float32 (soft_target m K k)) ks).
Proof.
  intros HK Hks. unfold soften_ordinal_labels.
  assert (soften_rows m (map (unit_row K) ks)
            (map (soften_hot m) (map (unit_row K) ks)) =
          Ok (map (soft_target m K) ks)) as ->.
  { induction Hks as [|k ks Hk _ IH]; [done|]. simpl.
    rewrite soften_row_unit by done. simpl. by rewrite IH. }
  simpl. by rewrite map_map.
Qed.

(** Softening a matrix of unit vectors of at least two classes: the class
    keeps [1 - m]; its only neighbour gets [m] when the class is the first
    or the last, otherwise each of its two neighbours gets [m / 2]; every
    other entry stays zero. *)
Theorem soften_unit_rows m K ks :
  2 <= K -> Forall (fun k => k < K) ks ->
  soften_ordinal_labels (map (unit_row K) ks) m =
  Ok (map (fun k => map astype_float32 (soft_target m K k)) ks).
Proof. apply soften_unit_matrix. Qed.

End SoftenProperties.

Section SoftenBatch.
Context {N : Numerics} {P : Partitioning} {FL : Floats}.

(** With at least two classes, the label matrix of every batch
    [get_data_part] returns can be softened, row [j] becoming the softened
    unit vector of the class of the [j]-th smallest requested sample. *)
Theorem soften_batch_labels s rows b s' m :
  constructed (self s) ->
  2 <= num_labels (self s) ->
  returns (get_data_part rows None) s b s' ->
  exists r,
    soften_ordinal_labels (l_onehot b) m = Ok r /\
    length r = length rows /\
    forall j i, sorted rows !! j = Some i ->
      exists lab k,
        labels (self s) !! i = Some lab /\
        label_types (self s) !! k = Some lab /\
        r !! j = Some (map astype_float32
                         (soft_target m (num_labels (self s)) k)).
Proof.
  intros Hc HK Hrun.
  destruct (label_matrix_units s rows b s' Hc Hrun) as [Hlen Hrows].
  set (K := num_labels (self s)) in *.
  destruct (Forall2_total
              (fun i k => exists lab,
                   labels (self s) !! i = Some lab /\
                   label_types (self s) !! k = Some lab /\
                   one_hot_row (self s) lab = unit_row K k)
              (sorted rows)) as [ks Hks].
  { apply Forall_forall. intros i Hi.
    apply list_elem_of_lookup in Hi as [j Hj].
    destruct (Hrows j i Hj) as (lab & k & Hlab & Hk & _).
    exists k, lab. split; [done|]. split; [done|].
    destruct Hc as [Htypes Hnum].
    apply one_hot_row_unit; try done.
    rewrite Htypes. apply NoDup_np_unique. }
  assert (l_onehot b = map (unit_row K) ks) as ->.
  { apply list_eq. intros j. change (map ?f ?l) with (f <$> l).
    rewrite list_lookup_fmap.
    destruct (sorted rows !! j) as [i|] eqn:Hj.
    - destruct (Forall2_lookup_l _ _ _ _ _ Hks Hj) as (k & Hk & lab & ? & ? & ?).
      destruct (Hrows j i Hj) as (lab' & k' & Hlab' & Hk' & Hrow).
      rewrite Hrow, Hk. simpl. f_equal.
      assert (lab' = lab) as -> by congruence.
      destruct Hc as [Htypes Hnum].
      etrans; [symmetry; apply (one_hot_row_unit (self s) lab k')|done];
        try done.
      rewrite Htypes. apply NoDup_np_unique.
    - apply lookup_ge_None in Hj. rewrite sorted_length in Hj.
      rewrite (proj2 (lookup_ge_None _ _)) by lia.
      apply Forall2_length in Hks. rewrite sorted_length in Hks.
      by rewrite (proj2 (lookup_ge_None ks j)) by lia. }
  eexists. split.
  - apply soften_unit_matrix; [done|].
    apply Forall_forall. intros k Hk.
    apply list_elem_of_lookup in Hk as [j Hj].
    destruct (Forall2_lookup_r _ _ _ _ _ Hks Hj) as (i & _ & lab & _ & Hk & _).
    apply lookup_lt_Some in Hk. destruct Hc as [_ Hnum]. unfold K. lia.
  - split.
    + rewrite length_map. apply Forall2_length in Hks.
      by rewrite <- Hks, sorted_length.
    + intros j i Hj.
      destruct (Forall2_lookup_l _ _ _ _ _ Hks Hj) as (k & Hk & lab & ? & ? & ?).
      exists lab, k. split; [done|]. split; [done|].
      change (map ?f ks) with (f <$> ks). by rewrite list_lookup_fmap, Hk.
Qed.

End SoftenBatch.

(** ** Sequential getters, whole-partition getters and iterators together *)

Section Passes.
Context {N : Numerics} {P : Partitioning}.
Implicit Types (d : Dataset) (s : state) (b : batch).

(** [get_validation_batch] of the base class wraps like the other two
    sequential getters: from cursor 0 on a non-empty validation partition,
    [ceil(|validation_part| / batch_size)] calls make one pass, leave the
    state where it started, and the next call serves the first slice
    again. *)
Theorem validation_cursor_wrap s batch_size :
  0 < batch_size ->
  validation_part (self s) <> [] ->
  batch_ind_valid (self s) = 0 ->
  forallb (readableb (self s)) (validation_part (self s)) = true ->
  serves_epoch get_validation_batch (validation_part (self s)) s batch_size.
Proof.
  intros Hb Hne Hcur Hread%readableb_readable.
  destruct (getter_pass validation_part batch_ind_valid with_batch_ind_valid
              get_validation_batch get_validation_batch_eq)
    with (batch_size := batch_size) (s := s)
    as (batches & Hrun & Hpass); try done.
  { by intros []. }
  exists batches. split; [done|]. split; [done|].
  destruct (get_validation_batch_returns batch_size s Hread)
    as (b & s1 & H1 & H2).
  exists b, s1. split; [done|]. by rewrite Hcur in H2.
Qed.

Lemma take_rows_raises {A} (arr : list A) idx e :
  take_rows arr idx = Raise e -> e = IndexError.
Proof.
  induction idx as [|i idx IH]; simpl; [done|].
  destruct (arr !! i); [|by intros [= <-]].
  destruct (take_rows arr idx); [done|]. simpl. intros [= <-]. by apply IH.
Qed.

Lemma take_view_raises (mat : list (list Feature)) k e :
  take_view mat k = Raise e -> e = IndexError.
Proof.
  induction mat as [|r mat IH]; simpl; [done|].
  destruct (r !! k); [|by intros [= <-]].
  destruct (take_view mat k); [done|]. simpl. intros [= <-]. by apply IH.
Qed.

Lemma codes_view_raises d srows k e :
  codes_view d srows k = Raise e -> e = IndexError.
Proof.
  unfold codes_view.
  destruct (take_rows (codes d) srows) eqn:Hrows; simpl.
  - apply take_view_raises.
  - intros [= <-]. by eapply take_rows_raises.
Qed.

(** The only exception of the fetch is the [IndexError] of an index outside
    the arrays. *)
Lemma data_part_raises d srows e :
  data_part d srows = Raise e -> e = IndexError.
Proof.
  unfold data_part.
  destruct (codes_view d srows 0) eqn:H1; simpl;
    [|intros [= <-]; by eapply codes_view_raises].
  destruct (codes_view d srows 1) eqn:H2; simpl;
    [|intros [= <-]; by eapply codes_view_raises].
  destruct (codes_view d srows 2) eqn:H3; simpl;
    [|intros [= <-]; by eapply codes_view_raises].
  destruct (codes_view d srows 3) eqn:H4; simpl;
    [|intros [= <-]; by eapply codes_view_raises].
  destruct (take_rows (labels d) srows) eqn:H5; simpl;
    [|intros [= <-]; by eapply take_rows_raises].
  destruct (take_rows (gsv_lat d) srows) eqn:H6; simpl;
    [|intros [= <-]; by eapply take_rows_raises].
  destruct (take_rows (gsv_lng d) srows) eqn:H7; simpl;
    [done|intros [= <-]; by eapply take_rows_raises].
Qed.

(* the fetch reads none of the cursors *)
Ltac drop_cursor_writes :=
  repeat match goal with
  | |- context [data_part (with_batch_ind ?n ?d) ?r] =>
      change (data_part (with_batch_ind n d) r) with (data_part d r)
  | |- context [data_part (with_batch_ind_valid ?n ?d) ?r] =>
      change (data_part (with_batch_ind_valid n d) r) with (data_part d r)
  | |- context [data_part (with_batch_ind_test ?n ?d) ?r] =>
      change (data_part (with_batch_ind_test n d) r) with (data_part d r)
  end.

Ltac commute_tac s n1 n2 :=
  unfold bind, ret;
  rewrite ?(get_train_batch_eq n1 s), ?(get_validation_batch_eq n1 s),
    ?(get_validation_batch_eq n2 s), ?(get_test_batch_eq n2 s);
  match goal with
  | |- match match data_part (self s) ?r1 with _ => _ end with _ => _ end =
       match match data_part (self s) ?r2 with _ => _ end with _ => _ end =>
      let H1 := fresh "H1" in
      let H2 := fresh "H2" in
      destruct (data_part (self s) r1) eqn:H1;
      destruct (data_part (self s) r2) eqn:H2;
      rewrite ?get_train_batch_eq, ?get_validation_batch_eq,
        ?get_test_batch_eq;
      unfold with_self;
      cbn [self train_part validation_part test_part batch_ind
             batch_ind_valid batch_ind_test with_batch_ind
             with_batch_ind_valid with_batch_ind_test np_random files];
      drop_cursor_writes;
      rewrite ?H1, ?H2; try done;
      apply data_part_raises in H1; apply data_part_raises in H2;
      by subst
  end.

(** The three sequential getters do not interfere: two getters of different
    partitions called in either order return the same batches and leave
    the same state (or raise alike). *)
Theorem sequential_getters_commute s n1 n2 :
  (b1 <- get_train_batch n1 ; b2 <- get_test_batch n2 ; ret (b1, b2)) s =
  (b2 <- get_test_batch n2 ; b1 <- get_train_batch n1 ; ret (b1, b2)) s /\
  (b1 <- get_train_batch n1 ; b2 <- get_validation_batch n2 ; ret (b1, b2)) s =
  (b2 <- get_validation_batch n2 ; b1 <- get_train_batch n1 ; ret (b1, b2)) s /\
  (b1 <- get_validation_batch n1 ; b2 <- get_test_batch n2 ; ret (b1, b2)) s =
  (b2 <- get_test_batch n2 ; b1 <- get_validation_batch n1 ; ret (b1, b2)) s.
Proof. split; [|split]; commute_tac s n1 n2. Qed.

Lemma slice_all {A} (part : list A) batch_size :
  length part <= batch_size -> slice part 0 batch_size = part.
Proof. intros. unfold slice. simpl. by apply take_ge. Qed.

Lemma with_batch_ind_id d : with_batch_ind (batch_ind d) d = d.
Proof. by destruct d. Qed.
Lemma with_batch_ind_valid_id d : with_batch_ind_valid (batch_ind_valid d) d = d.
Proof. by destruct d. Qed.
Lemma with_batch_ind_test_id d : with_batch_ind_test (batch_ind_test d) d = d.
Proof. by destruct d. Qed.

(** A batch size that covers the partition: from cursor 0 the sequential
    getter is the whole-partition getter, every time (the cursor stays at
    0). *)
Theorem whole_partition_batch s batch_size :
  (batch_ind (self s) = 0 ->
   length (train_part (self s)) <= batch_size ->
   get_train_batch batch_size s = get_train_data s) /\
  (batch_ind_valid (self s) = 0 ->
   length (validation_part (self s)) <= batch_size ->
   get_validation_batch batch_size s = get_validation_data s) /\
  (batch_ind_test (self s) = 0 ->
   length (test_part (self s)) <= batch_size ->
   get_test_batch batch_size s = get_test_data s).
Proof.
  split; [|split]; intros Hcur Hlen.
  - rewrite get_train_batch_eq. unfold get_train_data, bind, get_self.
    rewrite get_data_part_None, Hcur, slice_all by done.
    unfold next_cursor. rewrite decide_True by lia.
    rewrite <- Hcur, with_batch_ind_id. unfold with_self. by destruct s.
  - rewrite get_validation_batch_eq. unfold get_validation_data, bind, get_self.
    rewrite get_data_part_None, Hcur, slice_all by done.
    unfold next_cursor. rewrite decide_True by lia.
    rewrite <- Hcur, with_batch_ind_valid_id. unfold with_self. by destruct s.
  - rewrite get_test_batch_eq. unfold get_test_data, bind, get_self.
    rewrite get_data_part_None, Hcur, slice_all by done.
    unfold next_cursor. rewrite decide_True by lia.
    rewrite <- Hcur, with_batch_ind_test_id. unfold with_self. by destruct s.
Qed.

(** What the fetch returns is determined by the samples asked for. *)
Lemma holds_samples_unique d srows b1 b2 :
  holds_samples d srows b1 -> holds_samples d srows b2 -> b1 = b2.
Proof. intros H1%data_part_holds H2%data_part_holds. congruence. Qed.

Lemma one_pass_unique d part batch_size batches1 batches2 :
  one_pass d part batch_size batches1 ->
  one_pass d part batch_size batches2 ->
  batches1 = batches2.
Proof.
  intros [_ H1 _ _ _] [_ H2 _ _ _].
  revert batches2 H2. induction H1 as [|rows b1 rowss bs1 Hb1 _ IH];
    intros batches2 H2; inversion H2 as [|? b2 ? bs2 Hb2 Hrest]; subst; [done|].
  f_equal; [by eapply holds_samples_unique|by apply IH].
Qed.

(** The steps of the two iterators, drained. *)
Lemma validation_iterator_pass s batch_num :
  0 < batch_num ->
  Forall (readable (self s)) (validation_part (self s)) ->
  exists steps batches,
    returns (validation_iterator batch_num) s steps s /\
    returns (drain steps) s batches s /\
    one_pass (self s) (validation_part (self s)) batch_num batches.
Proof.
  intros Hb Hread.
  set (part := validation_part (self s)) in *.
  destruct (Forall2_total
              (fun rows b => data_part (self s) (sorted rows) = Ok b)
              (slices part batch_num (ceil_div (length part) batch_num)))
    as [batches Hres].
  { apply Forall_forall. intros rows Hrows.
    apply list_elem_of_fmap in Hrows as (k & -> & _).
    apply data_part_ok, sorted_Forall, Forall_take, Forall_drop, Hread. }
  eexists _, batches. split; [|split].
  - unfold returns, validation_iterator, bind, get_self, lift, ret.
    rewrite decide_False by lia. reflexivity.
  - unfold returns. apply drain_pure. unfold slices in Hres.
    apply Forall2_fmap_l in Hres. fold part.
    eapply Forall2_impl; [exact Hres|].
    intros k b Hdp. simpl in *. unfold bind, get_self.
    rewrite get_data_part_None. fold part. by rewrite Hdp.
  - split.
    + apply Forall2_length in Hres. by rewrite slices_length in Hres.
    + eapply Forall2_impl; [exact Hres|]. intros rows b Hdp.
      by apply data_part_holds.
    + by apply concat_slices_all.
    + intros k Hk. by apply slices_full.
    + intros k Hk. by apply slices_last.
Qed.

Lemma test_iterator_pass s batch_num :
  0 < batch_num ->
  Forall (readable (self s)) (test_part (self s)) ->
  Forall (fun i => i < length (vmap (self s))) (test_part (self s)) ->
  exists steps results,
    returns (test_iterator batch_num) s steps s /\
    returns (drain steps) s results s /\
    one_pass (self s) (test_part (self s)) batch_num results.*1.
Proof.
  intros Hb Hread Hmeta.
  set (part := test_part (self s)) in *.
  destruct (Forall2_total
              (fun rows (r : batch * list meta_row) =>
                 data_part (self s) (sorted rows) = Ok r.1 /\
                 take_rows (vmap (self s)) (sorted rows) = Ok r.2)
              (slices part batch_num (ceil_div (length part) batch_num)))
    as [results Hres].
  { apply Forall_forall. intros rows Hrows.
    apply list_elem_of_fmap in Hrows as (k & -> & _).
    destruct (data_part_ok (self s)
                (sorted (slice part (k * batch_num) batch_num))) as [b Hdp].
    { apply sorted_Forall, Forall_take, Forall_drop, Hread. }
    destruct (take_rows_ok (vmap (self s))
                (sorted (slice part (k * batch_num) batch_num))) as [m Hm].
    { apply sorted_Forall, Forall_take, Forall_drop, Hmeta. }
    by exists (b, m). }
  eexists _, results. split; [|split].
  - unfold returns, test_iterator, bind, get_self, lift, ret.
    rewrite decide_False by lia. reflexivity.
  - unfold returns. apply drain_pure. unfold slices in Hres.
    apply Forall2_fmap_l in Hres. fold part.
    eapply Forall2_impl; [exact Hres|].
    intros k [b m] [Hdp Hm]. simpl in *. unfold bind, get_self, lift, ret.
    rewrite get_data_part_None. fold part. rewrite Hdp. simpl.
    by rewrite Hm.
  - split.
    + rewrite length_fmap. apply Forall2_length in Hres.
      by rewrite slices_length in Hres.
    + apply Forall2_fmap_r. eapply Forall2_impl; [exact Hres|].
      intros rows r [Hdp _]. by apply data_part_holds.
    + by apply concat_slices_all.
    + intros k Hk. by apply slices_full.
    + intros k Hk. by apply slices_last.
Qed.

(** One pass of an iterator and one epoch of the sequential getter of the
    same partition, from cursor 0 and with the same batch size, return the
    same batches in the same order. *)
Theorem iterator_matches_epoch s batch_size :
  0 < batch_size ->
  (test_part (self s) <> [] ->
   batch_ind_test (self s) = 0 ->
   forallb (readableb (self s)) (test_part (self s)) = true ->
   has_meta (self s) (test_part (self s)) = true ->
   exists steps results,
     returns (test_iterator batch_size) s steps s /\
     returns (drain steps) s results s /\
     returns (drain (replicate (ceil_div (length (test_part (self s))) batch_size)
                       (get_test_batch batch_size))) s results.*1 s) /\
  (validation_part (self s) <> [] ->
   batch_ind_valid (self s) = 0 ->
   forallb (readableb (self s)) (validation_part (self s)) = true ->
   exists steps batches,
     returns (validation_iterator batch_size) s steps s /\
     returns (drain steps) s batches s /\
     returns (drain (replicate
                       (ceil_div (length (validation_part (self s))) batch_size)
                       (get_validation_batch batch_size))) s batches s).
Proof.
  intros Hb. split.
  - intros Hne Hcur Hread%readableb_readable Hmeta%has_meta_lt.
    destruct (test_iterator_pass s batch_size Hb Hread Hmeta)
      as (steps & results & Hit & Hdrain & Hpass).
    destruct (getter_pass test_part batch_ind_test with_batch_ind_test
                get_test_batch get_test_batch_eq)
      with (batch_size := batch_size) (s := s)
      as (batches & Hrun & Hpass'); try done.
    { by intros []. }
    exists steps, results. split; [done|]. split; [done|].
    by rewrite (one_pass_unique _ _ _ _ _ Hpass Hpass').
  - intros Hne Hcur Hread%readableb_readable.
    destruct (validation_iterator_pass s batch_size Hb Hread)
      as (steps & batches & Hit & Hdrain & Hpass).
    destruct (getter_pass validation_part batch_ind_valid with_batch_ind_valid
                get_validation_batch get_validation_batch_eq)
      with (batch_size := batch_size) (s := s)
      as (batches' & Hrun & Hpass'); try done.
    { by intros []. }
    exists steps, batches. split; [done|]. split; [done|].
    by rewrite (one_pass_unique _ _ _ _ _ Hpass Hpass').
Qed.

End Passes.

(** ** More on the prediction export *)

Section MorePredictions.
Context {N : Numerics} {P : Partitioning}.
Implicit Types (d : Dataset) (s : state).

Lemma exportable_lt d part :
  exportable d part = true ->
  Forall (fun i => i < length (vmap d) /\ i < length (labels d)) part.
Proof.
  unfold exportable. rewrite forallb_forall. intros Hexp.
  apply Forall_forall. intros i Hi%list_elem_of_In%Hexp.
  apply andb_true_iff in Hi as [H1 H2].
  by apply bool_decide_eq_true in H1, H2.
Qed.

Lemma write_preds_of_mismatch (part : Dataset -> list nat) s preds fname :
  exportable (self s) (part (self s)) = true ->
  length preds <> length (part (self s)) ->
  write_preds_of part preds fname s = Raise ValueError.
Proof.
  intros Hexp%exportable_lt Hlen.
  destruct (take_rows_ok (vmap (self s)) (sorted (part (self s)))) as [meta Hmeta].
  { apply sorted_Forall. eapply Forall_impl; [exact Hexp|]. by intros i [? _]. }
  destruct (take_rows_ok (labels (self s)) (sorted (part (self s)))) as [labs Hlabs].
  { apply sorted_Forall. eapply Forall_impl; [exact Hexp|]. by intros i [_ ?]. }
  pose proof (take_rows_length _ _ _ Hmeta) as Hml.
  pose proof (take_rows_length _ _ _ Hlabs) as Hll.
  rewrite sorted_length in Hml, Hll.
  unfold write_preds_of, bind, get_self, lift, ret.
  rewrite Hmeta, Hlabs. simpl.
  rewrite decide_False; [done|]. rewrite length_zip_with. lia.
Qed.

(** A prediction array that is not one prediction per test sample is
    refused: [write_preds] raises [ValueError] (and likewise
    [write_preds_validation] of [Dataset_TVT] for the validation
    partition). *)
Theorem write_preds_mismatch s preds fname :
  (exportable (self s) (test_part (self s)) = true ->
   length preds <> length (test_part (self s)) ->
   write_preds preds fname s = Raise ValueError) /\
  (exportable (self s) (validation_part (self s)) = true ->
   length preds <> length (validation_part (self s)) ->
   Dataset_TVT.write_preds_validation preds fname s = Raise ValueError).
Proof. split; apply write_preds_of_mismatch. Qed.

Lemma write_preds_of_frame (part : Dataset -> list nat) s preds fname s' :
  returns (write_preds_of part preds fname) s tt s' ->
  self s' = self s /\ np_random s' = np_random s /\
  length preds = length (part (self s)) /\
  (forall other, other <> fname -> files s' !! other = files s !! other) /\
  exists rows,
    files s' !! fname = Some (Csv (export_columns (self s)) rows) /\
    length rows = length preds.
Proof.
  unfold returns, write_preds_of, bind, get_self, lift, ret, write_file.
  destruct (take_rows (vmap (self s)) (sorted (part (self s)))) as [meta|]
    eqn:Hmeta; [|done].
  destruct (take_rows (labels (self s)) (sorted (part (self s)))) as [labs|]
    eqn:Hlabs; [|done].
  simpl. case_decide as Hlen; [|done]. intros [= <-]. simpl.
  pose proof (take_rows_length _ _ _ Hmeta) as Hml.
  pose proof (take_rows_length _ _ _ Hlabs) as Hll.
  rewrite sorted_length in Hml, Hll.
  rewrite length_zip_with in Hlen.
  split; [done|]. split; [done|]. split; [lia|]. split.
  - intros other Hne. by rewrite lookup_insert_ne.
  - eexists. split; [apply lookup_insert_eq|].
    rewrite !length_zip_with. lia.
Qed.

(** [write_preds], when it returns, has written the table to [fname] and
    nothing else: the object, the random state and every other file are
    as before; and it returns only for one prediction per test sample. *)
Theorem write_preds_frame s preds fname s' :
  returns (write_preds preds fname) s tt s' ->
  self s' = self s /\ np_random s' = np_random s /\
  length preds = length (test_part (self s)) /\
  (forall other, other <> fname -> files s' !! other = files s !! other) /\
  exists rows,
    files s' !! fname = Some (Csv (export_columns (self s)) rows) /\
    length rows = length preds.
Proof. apply write_preds_of_frame. Qed.

(** [write_preds_validation] of [Dataset_TVT] writes, for one prediction
    per validation sample, one row per member of the validation partition
    in ascending sample index, row [j] holding the metadata and label of
    the [j]-th smallest index and [preds[j]]. *)
Theorem write_preds_validation_table s preds fname :
  length preds = length (validation_part (self s)) ->
  exportable (self s) (validation_part (self s)) = true ->
  exists rows,
    returns (Dataset_TVT.write_preds_validation preds fname) s tt
      (mkState (self s) (np_random s)
         (<[fname := Csv (export_columns (self s)) rows]> (files s))) /\
    length rows = length (validation_part (self s)) /\
    Sorted le (sorted (validation_part (self s))) /\
    Permutation (sorted (validation_part (self s))) (validation_part (self s)) /\
    export_rows (self s) (sorted (validation_part (self s))) preds rows.
Proof.
  intros Hlen Hexp.
  destruct (write_preds_of_returns validation_part s preds fname Hlen Hexp)
    as (rows & Hrun & Hrows).
  exists rows. split; [done|]. split.
  { destruct Hrows as [-> _]. apply sorted_length. }
  split; [apply sorted_Sorted|]. split; [apply sorted_Permutation|done].
Qed.

End MorePredictions.

(** ** More on the balanced getters *)

Section MoreBalanced.
Context {N : Numerics} {P : Partitioning}.
Implicit Types (d : Dataset) (s : state) (b : batch).

Lemma NoDup_np_where_eq arr lab pos : NoDup (np_where_eq arr lab pos).
Proof.
  revert pos. induction arr as [|x arr IH]; intros pos; simpl.
  - constructor.
  - case_decide; [|apply IH]. constructor; [|apply IH].
    rewrite elem_of_np_where_eq. lia.
Qed.

Lemma take_rows_NoDup {A} (arr : list A) idx r :
  NoDup arr -> NoDup idx -> take_rows arr idx = Ok r -> NoDup r.
Proof.
  intros Harr Hidx Hr%take_rows_Forall2. apply NoDup_alt.
  intros a b x Ha Hb.
  destruct (Forall2_lookup_r _ _ _ _ _ Hr Ha) as (ja & Hja & Hxa).
  destruct (Forall2_lookup_r _ _ _ _ _ Hr Hb) as (jb & Hjb & Hxb).
  assert (ja = jb) as -> by (by eapply (NoDup_lookup arr)).
  by eapply (NoDup_lookup idx).
Qed.

(** The loop of the balanced getters in general: every class of [types]
    contributes [k] of its members of [part], or all of them when it has
    fewer; no member twice when [part] has no duplicates. *)
Lemma balanced_rows_general d part k types acc s :
  Forall (fun i => i < length (labels d)) part ->
  NoDup types ->
  exists new s',
    balanced_rows d part k types acc s = Ok (acc ++ new, s') /\
    Forall (fun i => i ∈ part /\ exists c, c ∈ types /\ labels d !! i = Some c) new /\
    (forall c, class_count d c new =
               if decide (c ∈ types) then k `min` class_count d c part else 0) /\
    (NoDup part -> NoDup new).
Proof.
  intros Hrange. revert acc s.
  induction types as [|lab types IH]; intros acc s Hnd.
  - exists [], s. rewrite app_nil_r. split; [done|]. split; [constructor|].
    split; [|intros; constructor].
    intros c. rewrite decide_False by apply not_elem_of_nil. done.
  - apply NoDup_cons in Hnd as [Hnotin Hnd].
    rewrite balanced_rows_cons.
    destruct (take_rows_ok (labels d) part Hrange) as [part_labels Hpl].
    rewrite Hpl. apply take_rows_Forall2 in Hpl. simpl.
    pose proof (np_random_permutation_perm (np_random s)
                  (np_where_eq part_labels lab 0)) as Hperm.
    set (perm := (np_random_permutation (np_random s)
                    (np_where_eq part_labels lab 0)).1) in *.
    assert (Forall (fun j => exists i, part !! j = Some i /\
                                       labels d !! i = Some lab) (take k perm))
      as Hsel.
    { apply Forall_take. rewrite <- Hperm. apply Forall_forall. intros j Hj.
      apply elem_of_np_where_eq in Hj as [_ Hj]. rewrite Nat.sub_0_r in Hj.
      destruct (Forall2_lookup_r _ _ _ _ _ Hpl Hj) as (i & Hi & Hlab).
      by exists i. }
    destruct (take_rows_ok part (take k perm)) as [picked Hpicked].
    { eapply Forall_impl; [exact Hsel|]. intros j (i & Hi & _).
      by eapply lookup_lt_Some. }
    rewrite Hpicked.
    assert (length picked = k `min` class_count d lab part) as Hlen.
    { rewrite (take_rows_length _ _ _ Hpicked), length_take.
      by rewrite <- Hperm, np_where_eq_length,
        (class_count_labels d lab part) by done. }
    assert (NoDup part -> NoDup picked) as Hnodup.
    { intros Hpart. eapply take_rows_NoDup; [exact Hpart| |exact Hpicked].
      eapply sublist_NoDup; [|apply sublist_take].
      rewrite <- Hperm. apply NoDup_np_where_eq. }
    apply take_rows_Forall2 in Hpicked.
    assert (Forall (fun i => i ∈ part /\ labels d !! i = Some lab) picked)
      as Hpk.
    { apply Forall_forall. intros i Hi.
      apply list_elem_of_lookup in Hi as [n Hn].
      destruct (Forall2_lookup_r _ _ _ _ _ Hpicked Hn) as (j & Hj & Hji).
      apply list_elem_of_lookup_2 in Hj.
      rewrite Forall_forall in Hsel. destruct (Hsel j Hj) as (i' & Hi' & Hlab).
      simplify_eq. split; [|done]. by eapply list_elem_of_lookup_2. }
    destruct (IH (acc ++ picked)
                (mkState (self s)
                   (np_random_permutation (np_random s)
                      (np_where_eq part_labels lab 0)).2 (files s)) Hnd)
      as (new & s' & Hrun & Hnew & Hcnt & Hnewnd).
    exists (picked ++ new), s'. split; [by rewrite Hrun, app_assoc|].
    split; [|split].
    + apply Forall_app. split.
      * eapply Forall_impl; [exact Hpk|]. intros i [? ?]. split; [done|].
        exists lab. split; [left|done].
      * eapply Forall_impl; [exact Hnew|]. intros i (? & c & ? & ?).
        split; [done|]. exists c. split; [by right|done].
    + intros c. rewrite class_count_app, Hcnt.
      rewrite (class_count_same d c lab picked)
        by (eapply Forall_impl; [exact Hpk|]; by intros i [? ?]).
      rewrite Hlen.
      destruct (decide (c = lab)) as [->|Hne].
      * rewrite decide_False by done. rewrite decide_True by left. lia.
      * destruct (decide (c ∈ types)).
        -- rewrite decide_True by (by right). done.
        -- rewrite decide_False; [done|]. rewrite elem_of_cons. by intros [?|?].
    + intros Hpart. apply NoDup_app. split; [by apply Hnodup|].
      split; [|by apply Hnewnd].
      intros i Hi Hi'. rewrite Forall_forall in Hpk, Hnew.
      destruct (Hpk i Hi) as [_ Hlab].
      destruct (Hnew i Hi') as (_ & c & Hc & Hlab').
      assert (c = lab) as -> by congruence. done.
Qed.

(** A balanced getter on the partition [part]: it returns when the samples
    of the partition are readable, with the rows of the members picked. *)
Lemma balanced_batch_general (part : Dataset -> list nat)
    (getter : nat -> M batch) s batch_size :
  (forall n s0, getter n s0 =
     if decide (length (label_types (self s0)) = 0) then Raise ZeroDivisionError
     else
       match balanced_rows (self s0) (part (self s0))
               (n / length (label_types (self s0)))
               (label_types (self s0)) [] s0 with
       | Ok (rows, s1) => get_data_part rows None s1
       | Raise e => Raise e
       end) ->
  label_types (self s) <> [] ->
  NoDup (label_types (self s)) ->
  Forall (readable (self s)) (part (self s)) ->
  exists b s' rows,
    returns (getter batch_size) s b s' /\
    holds_samples (self s) (sorted rows) b /\
    Forall (fun i => i ∈ part (self s)) rows /\
    (forall c, c ∈ label_types (self s) ->
       class_count (self s) c rows =
       (batch_size / length (label_types (self s)))
         `min` class_count (self s) c (part (self s))) /\
    (NoDup (part (self s)) -> NoDup rows).
Proof.
  intros Heq Hne Hnd Hread.
  destruct (balanced_rows_general (self s) (part (self s))
              (batch_size / length (label_types (self s)))
              (label_types (self s)) [] s)
    as (rows & s1 & Hrun & Hrows & Hcnt & Hnodup); [|done|].
  { eapply Forall_impl; [exact Hread|]. by intros i (_ & ? & _). }
  simpl in Hrun.
  destruct (balanced_rows_frame _ _ _ _ _ _ _ _ Hrun) as [Hself _].
  destruct (data_part_ok (self s) (sorted rows)) as [b Hb].
  { apply sorted_Forall. apply Forall_forall. intros i Hi.
    rewrite Forall_forall in Hrows, Hread. apply Hread. by apply Hrows. }
  exists b, s1, rows. split; [|split; [|split; [|split]]].
  - unfold returns. rewrite Heq.
    rewrite decide_False by (intros Hz; by apply Hne, nil_length_inv).
    by rewrite Hrun, get_data_part_None, Hself, Hb.
  - by apply data_part_holds.
  - eapply Forall_impl; [exact Hrows|]. by intros i [? _].
  - intros c Hc. rewrite Hcnt. by rewrite decide_True.
  - done.
Qed.

(** Whatever the class sizes, a balanced getter returns a batch in which
    every class has [batch_size // num_classes] samples of the partition,
    or all its samples when the partition has fewer of that class: for the
    train partition and for the validation partition. *)
Theorem balanced_batch_short_classes s batch_size :
  let d := self s in
  let k := batch_size / length (label_types d) in
  label_types d <> [] ->
  constructed d ->
  (forallb (readableb d) (train_part d) = true ->
   exists b s' rows,
     returns (get_balanced_train_batch batch_size) s b s' /\
     holds_samples d (sorted rows) b /\
     Forall (fun i => i ∈ train_part d) rows /\
     forall c, c ∈ label_types d ->
       class_count d c rows = k `min` class_count d c (train_part d)) /\
  (forallb (readableb d) (validation_part d) = true ->
   exists b s' rows,
     returns (get_balanced_validation_batch batch_size) s b s' /\
     holds_samples d (sorted rows) b /\
     Forall (fun i => i ∈ validation_part d) rows /\
     forall c, c ∈ label_types d ->
       class_count d c rows = k `min` class_count d c (validation_part d)).
Proof.
  intros d k Hne [Htypes Hnum].
  assert (NoDup (label_types d)) as Hnd
    by (rewrite Htypes; apply NoDup_np_unique).
  split; intros Hread%readableb_readable.
  - destruct (balanced_batch_general train_part get_balanced_train_batch
                s batch_size get_balanced_train_batch_eq Hne Hnd Hread)
      as (b & s' & rows & ? & ? & ? & ? & _).
    by exists b, s', rows.
  - destruct (balanced_batch_general validation_part
                get_balanced_validation_batch s batch_size
                get_balanced_validation_batch_eq Hne Hnd Hread)
      as (b & s' & rows & ? & ? & ? & ? & _).
    by exists b, s', rows.
Qed.

(** A balanced batch holds no sample twice when the partition it draws
    from has no duplicates. *)
Theorem balanced_batch_no_repeat s batch_size :
  let d := self s in
  label_types d <> [] ->
  constructed d ->
  (forallb (readableb d) (train_part d) = true ->
   NoDup (train_part d) ->
   exists b s' rows,
     returns (get_balanced_train_batch batch_size) s b s' /\
     holds_samples d (sorted rows) b /\
     NoDup (sorted rows)) /\
  (forallb (readableb d) (validation_part d) = true ->
   NoDup (validation_part d) ->
   exists b s' rows,
     returns (get_balanced_validation_batch batch_size) s b s' /\
     holds_samples d (sorted rows) b /\
     NoDup (sorted rows)).
Proof.
  intros d Hne [Htypes Hnum].
  assert (NoDup (label_types d)) as Hnd
    by (rewrite Htypes; apply NoDup_np_unique).
  split; intros Hread%readableb_readable Hpart.
  - destruct (balanced_batch_general train_part get_balanced_train_batch
                s batch_size get_balanced_train_batch_eq Hne Hnd Hread)
      as (b & s' & rows & ? & ? & _ & _ & Hrows).
    exists b, s', rows. split; [done|]. split; [done|].
    rewrite sorted_Permutation. by apply Hrows.
  - destruct (balanced_batch_general validation_part
                get_balanced_validation_batch s batch_size
                get_balanced_validation_batch_eq Hne Hnd Hread)
      as (b & s' & rows & ? & ? & _ & _ & Hrows).
    exists b, s', rows. split; [done|]. split; [done|].
    rewrite sorted_Permutation. by apply Hrows.
Qed.

(** The edges of the balanced getters: with no class at all (an empty label
    column) they raise [ZeroDivisionError]; with fewer requested samples
    than classes they return the batch of no samples. *)
Theorem balanced_batch_edges s batch_size :
  (label_types (self s) = [] ->
   get_balanced_train_batch batch_size s = Raise ZeroDivisionError /\
   get_balanced_validation_batch batch_size s = Raise ZeroDivisionError) /\
  (batch_size < length (label_types (self s)) ->
   NoDup (label_types (self s)) ->
   forallb (readableb (self s)) (train_part (self s)) = true ->
   exists s', returns (get_balanced_train_batch batch_size) s
                (empty_batch (self s)) s').
Proof.
  split.
  - intros Hnil.
    rewrite get_balanced_train_batch_eq, get_balanced_validation_batch_eq.
    by rewrite Hnil.
  - intros Hlt Hnd Hread%readableb_readable.
    destruct (balanced_rows_general (self s) (train_part (self s))
                (batch_size / length (label_types (self s)))
                (label_types (self s)) [] s)
      as (rows & s1 & Hrun & Hrows & Hcnt & _); [|done|].
    { eapply Forall_impl; [exact Hread|]. by intros i (_ & ? & _). }
    simpl in Hrun.
    destruct (balanced_rows_frame _ _ _ _ _ _ _ _ Hrun) as [Hself _].
    assert (rows = []) as ->.
    { destruct rows as [|i rows]; [done|].
      apply Forall_cons in Hrows as [(_ & c & Hc & Hlab) _].
      specialize (Hcnt c). rewrite decide_True in Hcnt by done.
      rewrite Nat.div_small in Hcnt by done.
      unfold class_count in Hcnt. rewrite filter_cons, Hlab in Hcnt.
      by rewrite decide_True in Hcnt. }
    exists s1. unfold returns. rewrite get_balanced_train_batch_eq.
    rewrite decide_False by lia.
    rewrite Hrun, get_data_part_None, Hself, sorted_nil. done.
Qed.

End MoreBalanced.

(** ** More on [pick_label] *)

Section MorePickLabel.
Context {N : Numerics} {P : Partitioning}.
Implicit Types (d : Dataset) (s : state).

(* case analysis on the innermost scrutinee of a run, until none is left *)
Ltac crunch H :=
  repeat match type of H with
  | context [match ?x with _ => _ end] =>
      lazymatch x with
      | context [match _ with _ => _ end] => fail
      | _ => destruct x eqn:?; simpl in H; try done
      end
  end.

Ltac open_pick_label H :=
  repeat progress
    unfold returns, Dataset_CrossValidation.pick_label, Dataset_TVT.pick_label,
      Dataset_TT.pick_label, Dataset_TT_byclass.pick_label, pick_train_part,
      bind, get_self, with_rng_result, assign, set_self, pickle_dump,
      pickle_load, as_part, as_folds, write_file, lift, ret in H;
  simpl in H; crunch H.

(** No [pick_label] touches the data columns, the class columns or the
    cursors; those of the classes without a validation partition
    ([Dataset_TT], [Dataset_TT_byclass]) leave [validation_part] as it is,
    and so does the k-fold one when no validation share is asked for. *)
Theorem pick_label_frame s s' part_gen part_file seed :
  (forall part_kn part_kp vsize,
      returns (Dataset_CrossValidation.pick_label part_gen part_file part_kn
                 part_kp vsize seed) s tt s' ->
      keeps_columns (self s) (self s') /\
      (Qle_bool vsize 0 = true ->
       validation_part (self s') = validation_part (self s))) /\
  (forall train_size valid_size psize,
      returns (Dataset_TVT.pick_label part_gen part_file train_size valid_size
                 psize seed) s tt s' ->
      keeps_columns (self s) (self s') /\
      kpartitions (self s') = kpartitions (self s)) /\
  (forall train_size psize,
      returns (Dataset_TT.pick_label part_gen part_file train_size psize seed)
        s tt s' ->
      keeps_columns (self s) (self s') /\
      validation_part (self s') = validation_part (self s) /\
      kpartitions (self s') = kpartitions (self s)) /\
  (forall train_size psize,
      returns (Dataset_TT_byclass.pick_label part_gen part_file train_size
                 psize seed) s tt s' ->
      keeps_columns (self s) (self s') /\
      validation_part (self s') = validation_part (self s) /\
      kpartitions (self s') = kpartitions (self s)).
Proof.
  unfold keeps_columns.
  split; [|split; [|split]]; intros.
  - open_pick_label H; simplify_eq; simpl; (split; [done|]); intros Hv;
      try done.
    all: apply Qle_bool_iff in Hv; exfalso; by eapply Qlt_not_le.
  - open_pick_label H; simplify_eq; done.
  - open_pick_label H; simplify_eq; done.
  - open_pick_label H; simplify_eq; done.
Qed.

End MorePickLabel.
